(** * spot-termination-exporter: the metric collection cycle

    A shallow embedding of [terminationCollector] (the collector source file:
    [NewTerminationCollector], [Describe], [Collect], [getIMDSv2Token],
    [getResponse]) and the properties of one scrape.

    What the Go code takes from libraries is an interface here:
    - [net/http], [net/url], [io]: the class [Runtime] gives the URL check of
      [http.NewRequest], the outcome of [client.Do] as a transition of an
      abstract [World], and the bytes and error [io.ReadAll] yields for a body;
    - [encoding/json]: the two decoders [json.Unmarshal] is used at are fields
      of [Runtime]; the module [GoJSON] further down gives the decoder of the
      Go standard library for the two structs, for concrete runs;
    - [time]: instants are nanoseconds on the wall clock, a [Duration] is an
      int64 count of nanoseconds, [Time.Sub] saturates as documented;
    - [prometheus]: a [Desc] and a [Metric] are records of what they were
      built from; [MustNewConstMetric] is total here (its panic on a label
      count that differs from the descriptor's is excluded by
      [Collect_label_arity] below; its check that label values are UTF-8 is
      outside the model). A gauge value is a rational: [float64] rounding of
      [Duration.Seconds] is outside the model.
    - [logrus]: log lines are kept with level, format and arguments. *)

From Stdlib Require Import ZArith QArith List String Ascii Bool Lia.
Import ListNotations.
Open Scope string_scope.
Open Scope Z_scope.

(** ** Go values *)

(** Go's [error]: the message. *)
Definition error := string.

Inductive result (A : Type) : Type :=
| Ok (a : A)
| Err (e : error).
Arguments Ok {A} a.
Arguments Err {A} e.

(** ** package time *)

(** An instant of the wall clock, in nanoseconds since the Unix epoch. The
    times [Collect] subtracts carry no monotonic reading on the decoded
    side, so [time.Until] compares wall clocks. *)
Definition time_Time := Z.

(** [time.Duration]: int64 nanoseconds. *)
Definition time_Duration := Z.

Definition minDuration : time_Duration := - 2 ^ 63.
Definition maxDuration : time_Duration := 2 ^ 63 - 1.
Definition time_Second : time_Duration := 1000000000.

(** The zero [time.Time]: January 1, year 1, 00:00:00 UTC. *)
Definition zeroTime : time_Time := - 62135596800 * time_Second.

(** [t.Sub(u)]: the difference, or the minimum or maximum [Duration] when it
    does not fit. *)
Definition time_Sub (t u : time_Time) : time_Duration :=
  if t - u <? minDuration then minDuration
  else if maxDuration <? t - u then maxDuration
  else t - u.

(** [d.Seconds()]: [float64(d / Second) + float64(d % Second) / 1e9], with
    Go's truncating division. *)
Definition Duration_Seconds (d : time_Duration) : Q :=
  (inject_Z (Z.quot d time_Second) + (Z.rem d time_Second # 1000000000))%Q.

(** The test [x > 0] on a gauge value. *)
Definition gt0 (x : Q) : bool := negb (Qle_bool x 0).

Arguments time_Sub : simpl never.
Arguments Duration_Seconds : simpl never.
Arguments gt0 : simpl never.

(** ** package prometheus *)

Definition Labels := list (string * string).

Record Desc : Type := {
  fqName : string;
  help : string;
  variableLabels : list string;
  constLabels : Labels
}.

Definition prometheus_NewDesc (name help_ : string) (vars : list string)
  (consts : Labels) : Desc :=
  {| fqName := name; help := help_; variableLabels := vars; constLabels := consts |}.

Inductive ValueType : Type := CounterValue | GaugeValue | UntypedValue.

Record Metric : Type := {
  desc : Desc;
  valType : ValueType;
  value : Q;
  labelValues : list string
}.

Definition prometheus_MustNewConstMetric (d : Desc) (vt : ValueType) (v : Q)
  (lvs : list string) : Metric :=
  {| desc := d; valType := vt; value := v; labelValues := lvs |}.

(** ** package net/http *)

Record http_Client : Type := { Timeout : time_Duration }.

Record Request : Type := {
  Method : string;
  URL : string;
  Header : list (string * string)
}.

Definition Header_Add (req : Request) (key val : string) : Request :=
  {| Method := Method req; URL := URL req; Header := Header req ++ [(key, val)] |}.

(** A response: the status and what [io.ReadAll] gives for its body (the
    bytes read, and the error that ended the read if there was one). *)
Record Response : Type := {
  StatusCode : Z;
  Body : string;
  BodyErr : option error
}.

Definition io_ReadAll (resp : Response) : string * option error :=
  (Body resp, BodyErr resp).

(** ** The collector's types (lines 13-31 of the collector file) *)

Record terminationCollector : Type := {
  metadataEndpoint : string;
  tokenEndpoint : string;
  useIMDSv2 : bool;
  rebalanceIndicator : Desc;
  rebalanceScrapeSuccessful : Desc;
  scrapeSuccessful : Desc;
  terminationIndicator : Desc;
  terminationTime : Desc
}.

Record instanceAction : Type := {
  Action : string;
  Time : time_Time
}.

Record instanceEvent : Type := {
  NoticeTime : time_Time
}.

Definition NewTerminationCollector (metadataEndpoint_ tokenEndpoint_ : string)
  (useIMDSv2_ : bool) (nodeLabels : Labels) : terminationCollector :=
  {| metadataEndpoint := metadataEndpoint_;
     tokenEndpoint := tokenEndpoint_;
     useIMDSv2 := useIMDSv2_;
     rebalanceIndicator :=
       prometheus_NewDesc "aws_instance_rebalance_recommended"
         "Instance rebalance is recommended"
         ["instance_id"; "instance_type"] nodeLabels;
     rebalanceScrapeSuccessful :=
       prometheus_NewDesc "aws_instance_metadata_service_events_available"
         "Metadata service events endpoint available"
         ["instance_id"] nodeLabels;
     scrapeSuccessful :=
       prometheus_NewDesc "aws_instance_metadata_service_available"
         "Metadata service available"
         ["instance_id"] nodeLabels;
     terminationIndicator :=
       prometheus_NewDesc "aws_instance_termination_imminent"
         "Instance is about to be terminated"
         ["instance_action"; "instance_id"; "instance_type"] nodeLabels;
     terminationTime :=
       prometheus_NewDesc "aws_instance_termination_in"
         "Instance will be terminated in"
         ["instance_id"; "instance_type"] nodeLabels |}.

(** [Describe]: the descriptors in the order they are sent. *)
Definition Describe (c : terminationCollector) : list Desc :=
  [rebalanceIndicator c; rebalanceScrapeSuccessful c; scrapeSuccessful c;
   terminationIndicator c; terminationTime c].

(** ** The world a scrape runs in *)

Class Runtime : Type := {
  (** the network, the metadata service and the clock *)
  World : Type;
  (** [url.Parse] as [http.NewRequest] uses it: the error for a URL it
      refuses *)
  url_Parse_err : string -> option error;
  (** [client.Do(req)]: a response or a transport error *)
  client_Do : http_Client -> Request -> World -> result Response * World;
  (** [time.Now()] *)
  time_Now : World -> time_Time;
  (** the clock never reads before the zero [time.Time] (year 1) *)
  time_Now_not_before_zero : forall w, zeroTime <= time_Now w;
  (** [json.Unmarshal(body, &ia)] on a zero [instanceAction] *)
  json_Unmarshal_instanceAction : string -> result instanceAction;
  (** [json.Unmarshal(body, &ie)] on a zero [instanceEvent] *)
  json_Unmarshal_instanceEvent : string -> result instanceEvent
}.

(** [http.NewRequest(method, url, nil)] for the methods used here. *)
Definition http_NewRequest `{Runtime} (method url : string) : result Request :=
  match url_Parse_err url with
  | Some e => Err e
  | None => Ok {| Method := method; URL := url; Header := [] |}
  end.

(** [time.Until(t)] for a [t] without monotonic reading: [t.Sub(time.Now())]. *)
Definition time_Until `{Runtime} (t : time_Time) (w : World) : time_Duration :=
  time_Sub t (time_Now w).

(** ** Logging *)

Inductive Level : Type := ErrorLevel | InfoLevel | DebugLevel.

Inductive LogArg : Type :=
| ArgS (s : string)
| ArgT (t : time_Time).

Record LogEntry : Type := {
  level : Level;
  format : string;
  args : list LogArg
}.

(** ** What a scrape leaves behind

    Besides the readings sent on [ch], the state keeps the observations the
    properties speak about: every return of the two client methods, with its
    arguments and result, and every reading of the clock. *)
Inductive Event : Type :=
| EvToken (url : string) (res : result string)
| EvFetch (url token : string) (res : result Response)
| EvNow (now : time_Time).

Record State `{Runtime} : Type := {
  self : terminationCollector;   (* the receiver [c], a pointer in Go *)
  world : World;
  ch : list Metric;              (* sent on the channel, oldest first *)
  logs : list LogEntry;
  trace : list Event
}.

Definition init `{Runtime} (c : terminationCollector) (w : World) : State :=
  {| self := c; world := w; ch := []; logs := []; trace := [] |}.

(** ** The monad of [Collect]: state, and [return] out of the function *)

Inductive Flow (A : Type) : Type :=
| Next (a : A)
| Return.
Arguments Next {A} a.
Arguments Return {A}.

Definition M `{Runtime} (A : Type) : Type := State -> Flow A * State.

Definition ret `{Runtime} {A : Type} (a : A) : M A := fun s => (Next a, s).

Definition bind `{Runtime} {A B : Type} (m : M A) (k : A -> M B) : M B :=
  fun s =>
    match m s with
    | (Next a, s') => k a s'
    | (Return, s') => (Return, s')
    end.

Definition return_ `{Runtime} {A : Type} : M A := fun s => (Return, s).

Notation "x <- m ;; k" := (bind m (fun x => k))
  (at level 61, m at next level, right associativity).
Notation "m ;; k" := (bind m (fun _ => k))
  (at level 61, right associativity).

Definition field `{Runtime} {A : Type} (f : terminationCollector -> A) : M A :=
  fun s => (Next (f (self s)), s).

Definition send `{Runtime} (m : Metric) : M unit :=
  fun s => (Next tt,
            {| self := self s; world := world s; ch := ch s ++ [m];
               logs := logs s; trace := trace s |}).

Definition log_ `{Runtime} (l : Level) (fmt : string) (a : list LogArg) : M unit :=
  fun s => (Next tt,
            {| self := self s; world := world s; ch := ch s;
               logs := logs s ++ [{| level := l; format := fmt; args := a |}];
               trace := trace s |}).

Definition observe `{Runtime} (e : Event) : M unit :=
  fun s => (Next tt,
            {| self := self s; world := world s; ch := ch s;
               logs := logs s; trace := trace s ++ [e] |}).

Definition Do `{Runtime} (client : http_Client) (req : Request) : M (result Response) :=
  fun s =>
    let (r, w') := client_Do client req (world s) in
    (Next r,
     {| self := self s; world := w'; ch := ch s;
        logs := logs s; trace := trace s |}).

Definition Until `{Runtime} (t : time_Time) : M time_Duration :=
  fun s =>
    (Next (time_Until t (world s)),
     {| self := self s; world := world s; ch := ch s;
        logs := logs s; trace := trace s ++ [EvNow (time_Now (world s))] |}).

(** [s] with its world replaced and one more observation. *)
Definition observed `{Runtime} (s : State) (w : World) (ev : Event) : State :=
  {| self := self s; world := w; ch := ch s; logs := logs s;
     trace := trace s ++ [ev] |}.

(** ** The metadata client (lines 172-198) *)

Definition getIMDSv2Token `{Runtime} (client : http_Client) (url : string)
  : M (result string) :=
  r <- match http_NewRequest "PUT" url with
       | Err err => ret (Err err)
       | Ok req =>
         let req := Header_Add req "X-aws-ec2-metadata-token-ttl-seconds" "21600" in
         resp <- Do client req ;;
         match resp with
         | Err err => ret (Err err)
         | Ok resp =>
           match io_ReadAll resp with
           | (_, Some err) => ret (Err err)
           | (body, None) => ret (Ok body)
           end
         end
       end ;;
  observe (EvToken url r) ;;
  ret r.

Definition getResponse `{Runtime} (client : http_Client) (url token : string)
  : M (result Response) :=
  r <- match http_NewRequest "GET" url with
       | Err err => ret (Err err)
       | Ok req =>
         let req := if String.eqb token "" then req
                    else Header_Add req "X-aws-ec2-metadata-token" token in
         Do client req
       end ;;
  observe (EvFetch url token r) ;;
  ret r.

(** ** Collect (lines 60-170)

    [defer ... Body.Close()] has no effect on what is observed here. *)
Definition Collect `{Runtime} : M unit :=
  log_ InfoLevel "Fetching termination data from metadata-service" [] ;;
  let timeout := 1 * time_Second in
  let client := {| Timeout := timeout |} in
  v2 <- field useIMDSv2 ;;
  token <- (if (v2 : bool) then
              te <- field tokenEndpoint ;;
              maybeToken <- getIMDSv2Token client te ;;
              match maybeToken with
              | Err err =>
                log_ ErrorLevel "couldn't fetch token for IMDSv2: %s" [ArgS err] ;;
                return_
              | Ok maybeToken => ret maybeToken
              end
            else ret "") ;;
  me <- field metadataEndpoint ;;
  idResp <- getResponse client (me ++ "instance-id")%string token ;;
  match idResp with
  | Err err =>
    log_ ErrorLevel "couldn't parse instance-id from metadata: %s" [ArgS err] ;;
    return_
  | Ok idResp =>
  if StatusCode idResp =? 404 then
    log_ ErrorLevel "couldn't parse instance-id from metadata: endpoint not found" [] ;;
    return_
  else
  let (body, _) := io_ReadAll idResp in
  let instanceID := body in
  me <- field metadataEndpoint ;;
  typeResp <- getResponse client (me ++ "instance-type")%string token ;;
  match typeResp with
  | Err err =>
    log_ ErrorLevel "couldn't parse instance-type from metadata: %s" [ArgS err] ;;
    return_
  | Ok typeResp =>
  if StatusCode typeResp =? 404 then
    log_ ErrorLevel "couldn't parse instance-type from metadata: endpoint not found" [] ;;
    return_
  else
  let (body, _) := io_ReadAll typeResp in
  let instanceType := body in
  me <- field metadataEndpoint ;;
  resp <- getResponse client (me ++ "spot/instance-action")%string token ;;
  match resp with
  | Err err =>
    log_ ErrorLevel "Failed to fetch data from metadata service: %s" [ArgS err] ;;
    d <- field scrapeSuccessful ;;
    send (prometheus_MustNewConstMetric d GaugeValue 0 [instanceID])
  | Ok resp =>
    d <- field scrapeSuccessful ;;
    send (prometheus_MustNewConstMetric d GaugeValue 1 [instanceID]) ;;
    if StatusCode resp =? 404 then
      log_ DebugLevel "instance-action endpoint not found" [] ;;
      d <- field terminationIndicator ;;
      send (prometheus_MustNewConstMetric d GaugeValue 0 [""; instanceID; instanceType])
    else
      let (body, _) := io_ReadAll resp in
      match json_Unmarshal_instanceAction body with
      | Err err =>
        log_ ErrorLevel "Couldn't parse instance-action metadata: %s" [ArgS err] ;;
        log_ InfoLevel "instanceID: %s, instanceType: %s"
          [ArgS instanceID; ArgS instanceType] ;;
        d <- field terminationIndicator ;;
        send (prometheus_MustNewConstMetric d GaugeValue 0 [""; instanceID; instanceType])
      | Ok ia =>
        log_ InfoLevel "instance-action endpoint available, termination time: %v"
          [ArgT (Time ia)] ;;
        d <- field terminationIndicator ;;
        send (prometheus_MustNewConstMetric d GaugeValue 1
                [Action ia; instanceID; instanceType]) ;;
        delta <- Until (Time ia) ;;
        if gt0 (Duration_Seconds delta) then
          d <- field terminationTime ;;
          send (prometheus_MustNewConstMetric d GaugeValue (Duration_Seconds delta)
                  [instanceID; instanceType])
        else ret tt
      end
  end ;;
  me <- field metadataEndpoint ;;
  eventResp <- getResponse client (me ++ "events/recommendations/rebalance")%string token ;;
  match eventResp with
  | Err err =>
    log_ ErrorLevel "Failed to fetch events data from metadata service: %s" [ArgS err] ;;
    d <- field rebalanceScrapeSuccessful ;;
    send (prometheus_MustNewConstMetric d GaugeValue 0 [instanceID]) ;;
    return_
  | Ok eventResp =>
    d <- field rebalanceScrapeSuccessful ;;
    send (prometheus_MustNewConstMetric d GaugeValue 1 [instanceID]) ;;
    if StatusCode eventResp =? 404 then
      log_ DebugLevel "rebalance endpoint not found" [] ;;
      d <- field rebalanceIndicator ;;
      send (prometheus_MustNewConstMetric d GaugeValue 0 [instanceID; instanceType]) ;;
      return_
    else
      let (body, _) := io_ReadAll eventResp in
      match json_Unmarshal_instanceEvent body with
      | Err err =>
        log_ ErrorLevel "Couldn't parse rebalance recommendation event metadata: %s"
          [ArgS err] ;;
        d <- field rebalanceIndicator ;;
        send (prometheus_MustNewConstMetric d GaugeValue 0 [instanceID; instanceType])
      | Ok ie =>
        log_ InfoLevel
          "rebalance recommendation event endpoint available, recommendation time: %v"
          [ArgT (NoticeTime ie)] ;;
        d <- field rebalanceIndicator ;;
        send (prometheus_MustNewConstMetric d GaugeValue 1 [instanceID; instanceType])
      end
  end
  end
  end.

(** One scrape of collector [c] in world [w]: the state [Collect] leaves. *)
Definition scrape `{Runtime} (c : terminationCollector) (w : World) : State :=
  snd (Collect (init c w)).

(** ** Vocabulary of the properties *)

Definition idURL (c : terminationCollector) : string :=
  (metadataEndpoint c ++ "instance-id")%string.
Definition typeURL (c : terminationCollector) : string :=
  (metadataEndpoint c ++ "instance-type")%string.
Definition actionURL (c : terminationCollector) : string :=
  (metadataEndpoint c ++ "spot/instance-action")%string.
Definition rebalanceURL (c : terminationCollector) : string :=
  (metadataEndpoint c ++ "events/recommendations/rebalance")%string.

Definition gauge (d : Desc) (v : Q) (lvs : list string) : Metric :=
  prometheus_MustNewConstMetric d GaugeValue v lvs.

(** The five readings, by descriptor. *)
Definition available (c : terminationCollector) (v : Q) (id : string) : Metric :=
  gauge (scrapeSuccessful c) v [id].
Definition imminent (c : terminationCollector) (v : Q) (action id ty : string) : Metric :=
  gauge (terminationIndicator c) v [action; id; ty].
Definition eta (c : terminationCollector) (v : Q) (id ty : string) : Metric :=
  gauge (terminationTime c) v [id; ty].
Definition events_available (c : terminationCollector) (v : Q) (id : string) : Metric :=
  gauge (rebalanceScrapeSuccessful c) v [id].
Definition recommended (c : terminationCollector) (v : Q) (id ty : string) : Metric :=
  gauge (rebalanceIndicator c) v [id; ty].

(** The scrape fetched [url] and [getResponse] returned [r]. *)
Definition fetched `{Runtime} (s : State) (url : string) (r : result Response) : Prop :=
  exists token, In (EvFetch url token r) (trace s).

(** A transport error, or a response with status 404. *)
Definition failed_or_404 (r : result Response) : Prop :=
  match r with
  | Err _ => True
  | Ok resp => StatusCode resp = 404
  end.

(** What the metadata service answered, call by call, and what the clock
    read. *)
Inductive Reply : Type :=
| RToken (r : result string)
| RFetch (r : result Response).

Definition replies (tr : list Event) : list Reply :=
  flat_map (fun ev =>
              match ev with
              | EvToken _ r => [RToken r]
              | EvFetch _ _ r => [RFetch r]
              | EvNow _ => []
              end) tr.

Definition clock_readings (tr : list Event) : list time_Time :=
  flat_map (fun ev =>
              match ev with
              | EvNow now => [now]
              | _ => []
              end) tr.

(** The tokens the fetches were made with. *)
Definition fetch_tokens (tr : list Event) : list string :=
  flat_map (fun ev =>
              match ev with
              | EvFetch _ token _ => [token]
              | _ => []
              end) tr.






(** Nothing, or one termination-eta reading. *)
Definition eta_only (c : terminationCollector) (E : list Metric) : Prop :=
  E = [] \/ exists seconds id ty, E = [eta c seconds id ty].

(** The fetches of a scrape use the token negotiated at its start, and the
    empty token when none is negotiated. *)
Definition tokens_fresh (c : terminationCollector) (tr : list Event) : Prop :=
  match tr with
  | EvToken url res :: rest =>
    useIMDSv2 c = true /\ url = tokenEndpoint c /\
    Forall (fun token => res = Ok token) (fetch_tokens rest)
  | _ =>
    useIMDSv2 c = false /\ Forall (fun token => token = EmptyString) (fetch_tokens tr)
  end.

(** ** The paths of one scrape, as relations on what it observes and sends *)

Inductive TokenPhase (c : terminationCollector) : string -> list Event -> Prop :=
| Tok_off :
    useIMDSv2 c = false -> TokenPhase c "" []
| Tok_on token :
    useIMDSv2 c = true ->
    TokenPhase c token [EvToken (tokenEndpoint c) (Ok token)].

Inductive TerminationPhase `{Runtime} (c : terminationCollector) (id ty : string)
  : result Response -> list Event -> list Metric -> Prop :=
| T_unreachable e :
    TerminationPhase c id ty (Err e) [] [available c 0 id]
| T_not_found r :
    StatusCode r = 404 ->
    TerminationPhase c id ty (Ok r) [] [available c 1 id; imminent c 0 "" id ty]
| T_undecodable r err :
    StatusCode r <> 404 ->
    json_Unmarshal_instanceAction (Body r) = Err err ->
    TerminationPhase c id ty (Ok r) [] [available c 1 id; imminent c 0 "" id ty]
| T_notice r ia now :
    StatusCode r <> 404 ->
    json_Unmarshal_instanceAction (Body r) = Ok ia ->
    zeroTime <= now ->
    TerminationPhase c id ty (Ok r) [EvNow now]
      ([available c 1 id; imminent c 1 (Action ia) id ty] ++
       (if gt0 (Duration_Seconds (time_Sub (Time ia) now))
        then [eta c (Duration_Seconds (time_Sub (Time ia) now)) id ty]
        else [])).

Inductive RebalancePhase `{Runtime} (c : terminationCollector) (id ty : string)
  : result Response -> list Metric -> Prop :=
| R_unreachable e :
    RebalancePhase c id ty (Err e) [events_available c 0 id]
| R_not_found r :
    StatusCode r = 404 ->
    RebalancePhase c id ty (Ok r) [events_available c 1 id; recommended c 0 id ty]
| R_undecodable r err :
    StatusCode r <> 404 ->
    json_Unmarshal_instanceEvent (Body r) = Err err ->
    RebalancePhase c id ty (Ok r) [events_available c 1 id; recommended c 0 id ty]
| R_notice r ie :
    StatusCode r <> 404 ->
    json_Unmarshal_instanceEvent (Body r) = Ok ie ->
    RebalancePhase c id ty (Ok r) [events_available c 1 id; recommended c 1 id ty].

Inductive Scraped `{Runtime} (c : terminationCollector)
  : list Event -> list Metric -> Prop :=
| S_token_failed e :
    useIMDSv2 c = true ->
    Scraped c [EvToken (tokenEndpoint c) (Err e)] []
| S_id_failed token pre r :
    TokenPhase c token pre ->
    failed_or_404 r ->
    Scraped c (pre ++ [EvFetch (idURL c) token r]) []
| S_type_failed token pre idr r :
    TokenPhase c token pre ->
    StatusCode idr <> 404 ->
    failed_or_404 r ->
    Scraped c (pre ++ [EvFetch (idURL c) token (Ok idr);
                       EvFetch (typeURL c) token r]) []
| S_completed token pre idr tyr ar rr clock T R :
    TokenPhase c token pre ->
    StatusCode idr <> 404 ->
    StatusCode tyr <> 404 ->
    TerminationPhase c (Body idr) (Body tyr) ar clock T ->
    RebalancePhase c (Body idr) (Body tyr) rr R ->
    Scraped c (pre ++ [EvFetch (idURL c) token (Ok idr);
                       EvFetch (typeURL c) token (Ok tyr);
                       EvFetch (actionURL c) token ar] ++ clock ++
                      [EvFetch (rebalanceURL c) token rr])
              (T ++ R).

(** * encoding/json, as [json.Unmarshal] behaves on the two structs

    A model of the Go standard library: the scanner's grammar (RFC 8259, at
    most 10000 levels of nesting), string unquoting, and the rules by which
    an object is stored into a struct with a [string] field and [time.Time]
    fields. Parsing of the RFC 3339 text of a time is [time]'s and stays a
    parameter. *)
Module GoJSON.

#[local] Set Warnings "-register-all".


Inductive value : Type :=
| Null
| Bool (b : bool)
| Number (lit : string)
| Str (raw : string)                       (* the literal between its quotes *)
| Array (items : list value)
| Object (members : list (string * value)). (* keys as written, in order *)

Definition byte (c : ascii) : Z := Z.of_N (N_of_ascii c).

Definition chr (b : Z) : ascii := ascii_of_N (Z.to_N b).

Definition isSpace (c : ascii) : bool :=
  let b := byte c in (b =? 32) || (b =? 9) || (b =? 13) || (b =? 10).

Definition isDigit (c : ascii) : bool :=
  let b := byte c in (48 <=? b) && (b <=? 57).

Definition isHex (c : ascii) : bool :=
  let b := byte c in
  ((48 <=? b) && (b <=? 57)) || ((97 <=? b) && (b <=? 102)) || ((65 <=? b) && (b <=? 70)).

Fixpoint skipSpace (s : string) : string :=
  match s with
  | String c s' => if isSpace c then skipSpace s' else s
  | EmptyString => s
  end.

(** The rest of a string literal after its opening quote: the raw text up
    to the closing quote, and what follows it. *)
Fixpoint scanString (s : string) : option (string * string) :=
  match s with
  | EmptyString => None
  | String c s' =>
    let b := byte c in
    if b =? 34 then Some (EmptyString, s')
    else if b =? 92 then
      match s' with
      | EmptyString => None
      | String e s'' =>
        let be := byte e in
        if (be =? 98) || (be =? 102) || (be =? 110) || (be =? 114) || (be =? 116)
           || (be =? 92) || (be =? 47) || (be =? 34)
        then
          match scanString s'' with
          | Some (raw, rest) => Some (String c (String e raw), rest)
          | None => None
          end
        else if be =? 117 then
          match s'' with
          | String h1 (String h2 (String h3 (String h4 s3))) =>
            if isHex h1 && isHex h2 && isHex h3 && isHex h4 then
              match scanString s3 with
              | Some (raw, rest) =>
                Some (String c (String e (String h1 (String h2 (String h3 (String h4 raw))))),
                      rest)
              | None => None
              end
            else None
          | _ => None
          end
        else None
      end
    else if b <? 32 then None
    else
      match scanString s' with
      | Some (raw, rest) => Some (String c raw, rest)
      | None => None
      end
  end.

Fixpoint spanDigits (s : string) : string * string :=
  match s with
  | String c s' =>
    if isDigit c then let (ds, rest) := spanDigits s' in (String c ds, rest)
    else (EmptyString, s)
  | EmptyString => (EmptyString, s)
  end.

(** A number literal at the head of [s]: an optional minus; 0, or a digit
    1-9 and digits; optionally a point and one digit or more; optionally e
    or E, an optional sign, and one digit or more. *)
Definition scanNumber (s : string) : option (string * string) :=
  let (sign, s1) :=
    match s with
    | String c s' => if byte c =? 45 then (String c EmptyString, s') else (EmptyString, s)
    | EmptyString => (EmptyString, s)
    end in
  match s1 with
  | EmptyString => None
  | String c s2 =>
    if negb (isDigit c) then None
    else
      let (int, s3) :=
        if byte c =? 48 then (String c EmptyString, s2)
        else let (ds, r) := spanDigits s2 in (String c ds, r) in
      let frac :=
        match s3 with
        | String d s4 =>
          if byte d =? 46 then
            let (ds, r) := spanDigits s4 in
            match ds with
            | EmptyString => None
            | _ => Some (String d ds, r)
            end
          else Some (EmptyString, s3)
        | EmptyString => Some (EmptyString, s3)
        end in
      match frac with
      | None => None
      | Some (fr, s5) =>
        let exp :=
          match s5 with
          | String e s6 =>
            if (byte e =? 101) || (byte e =? 69) then
              let (sg, s7) :=
                match s6 with
                | String g s' =>
                  if (byte g =? 43) || (byte g =? 45) then (String g EmptyString, s')
                  else (EmptyString, s6)
                | EmptyString => (EmptyString, s6)
                end in
              let (ds, r) := spanDigits s7 in
              match ds with
              | EmptyString => None
              | _ => Some (String e (sg ++ ds), r)
              end
            else Some (EmptyString, s5)
          | EmptyString => Some (EmptyString, s5)
          end in
        match exp with
        | None => None
        | Some (ex, rest) => Some (sign ++ int ++ fr ++ ex, rest)
        end
      end
  end.

(** [s] starts with the literal [lit]: what follows it. *)
Fixpoint scanLiteral (lit s : string) : option string :=
  match lit with
  | EmptyString => Some s
  | String c lit' =>
    match s with
    | String d s' => if Ascii.eqb c d then scanLiteral lit' s' else None
    | EmptyString => None
    end
  end.

Definition maxNestingDepth : Z := 10000.

(** One value at the head of [s] (no leading space), at nesting [depth]. *)
Fixpoint parseValue (fuel : nat) (depth : Z) (s : string) {struct fuel}
  : option (value * string) :=
  match fuel with
  | O => None
  | S fuel' =>
    match s with
    | EmptyString => None
    | String c s' =>
      let b := byte c in
      if b =? 123 then
        if maxNestingDepth <? depth + 1 then None
        else
          match skipSpace s' with
          | String c2 s2 =>
            if byte c2 =? 125 then Some (Object [], s2)
            else
              match parseMembers fuel' (depth + 1) (String c2 s2) with
              | Some (ms, rest) => Some (Object ms, rest)
              | None => None
              end
          | EmptyString => None
          end
      else if b =? 91 then
        if maxNestingDepth <? depth + 1 then None
        else
          match skipSpace s' with
          | String c2 s2 =>
            if byte c2 =? 93 then Some (Array [], s2)
            else
              match parseElements fuel' (depth + 1) (String c2 s2) with
              | Some (vs, rest) => Some (Array vs, rest)
              | None => None
              end
          | EmptyString => None
          end
      else if b =? 34 then
        match scanString s' with
        | Some (raw, rest) => Some (Str raw, rest)
        | None => None
        end
      else if b =? 116 then
        match scanLiteral "true" s with
        | Some rest => Some (Bool true, rest)
        | None => None
        end
      else if b =? 102 then
        match scanLiteral "false" s with
        | Some rest => Some (Bool false, rest)
        | None => None
        end
      else if b =? 110 then
        match scanLiteral "null" s with
        | Some rest => Some (Null, rest)
        | None => None
        end
      else
        match scanNumber s with
        | Some (lit, rest) => Some (Number lit, rest)
        | None => None
        end
    end
  end
with parseMembers (fuel : nat) (depth : Z) (s : string) {struct fuel}
  : option (list (string * value) * string) :=
  match fuel with
  | O => None
  | S fuel' =>
    match s with
    | EmptyString => None
    | String q s1 =>
      if negb (byte q =? 34) then None
      else
        match scanString s1 with
        | None => None
        | Some (key, s2) =>
          match skipSpace s2 with
          | EmptyString => None
          | String col s3 =>
            if negb (byte col =? 58) then None
            else
              match parseValue fuel' depth (skipSpace s3) with
              | None => None
              | Some (v, s4) =>
                match skipSpace s4 with
                | EmptyString => None
                | String d s5 =>
                  if byte d =? 44 then
                    match parseMembers fuel' depth (skipSpace s5) with
                    | Some (ms, rest) => Some ((key, v) :: ms, rest)
                    | None => None
                    end
                  else if byte d =? 125 then Some ([(key, v)], s5)
                  else None
                end
              end
          end
        end
    end
  end
with parseElements (fuel : nat) (depth : Z) (s : string) {struct fuel}
  : option (list value * string) :=
  match fuel with
  | O => None
  | S fuel' =>
    match parseValue fuel' depth s with
    | None => None
    | Some (v, s1) =>
      match skipSpace s1 with
      | EmptyString => None
      | String d s2 =>
        if byte d =? 44 then
          match parseElements fuel' depth (skipSpace s2) with
          | Some (vs, rest) => Some (v :: vs, rest)
          | None => None
          end
        else if byte d =? 93 then Some ([v], s2)
        else None
      end
    end
  end.

(** The whole input as one JSON value ([checkValid] and the decoder's
    scan): space, a value, space, the end. *)
Definition parse (data : string) : option value :=
  match parseValue (2 * String.length data + 2) 0 (skipSpace data) with
  | Some (v, rest) =>
    match skipSpace rest with
    | EmptyString => Some v
    | _ => None
    end
  | None => None
  end.


(** ** Unquoting a string literal ([unquoteBytes]) *)

Fixpoint drop (n : nat) (s : string) : string :=
  match n, s with
  | S n', String _ s' => drop n' s'
  | _, _ => s
  end.

Fixpoint take (n : nat) (s : string) : string :=
  match n, s with
  | S n', String c s' => String c (take n' s')
  | _, _ => EmptyString
  end.

Definition between (c : ascii) (lo hi : Z) : bool :=
  let b := byte c in (lo <=? b) && (b <=? hi).

(** The length of the well-formed UTF-8 sequence at the head of [s], whose
    first byte is 0x80 or more; 0 when it is malformed ([utf8.DecodeRune]
    then gives the replacement rune and size 1). *)
Definition utf8Len (s : string) : nat :=
  match s with
  | EmptyString => 0%nat
  | String c0 rest =>
    let b0 := byte c0 in
    if (0xC2 <=? b0) && (b0 <=? 0xDF) then
      match rest with
      | String c1 _ => if between c1 0x80 0xBF then 2%nat else 0%nat
      | _ => 0%nat
      end
    else if (0xE0 <=? b0) && (b0 <=? 0xEF) then
      let lo := if b0 =? 0xE0 then 0xA0 else 0x80 in
      let hi := if b0 =? 0xED then 0x9F else 0xBF in
      match rest with
      | String c1 (String c2 _) =>
        if between c1 lo hi && between c2 0x80 0xBF then 3%nat else 0%nat
      | _ => 0%nat
      end
    else if (0xF0 <=? b0) && (b0 <=? 0xF4) then
      let lo := if b0 =? 0xF0 then 0x90 else 0x80 in
      let hi := if b0 =? 0xF4 then 0x8F else 0xBF in
      match rest with
      | String c1 (String c2 (String c3 _)) =>
        if between c1 lo hi && between c2 0x80 0xBF && between c3 0x80 0xBF
        then 4%nat else 0%nat
      | _ => 0%nat
      end
    else 0%nat
  end.

Definition str1 (b : Z) : string := String (chr b) EmptyString.

(** U+FFFD in UTF-8. *)
Definition replacement : string := str1 0xEF ++ str1 0xBF ++ str1 0xBD.

(** [utf8.EncodeRune]. *)
Definition encodeRune (r : Z) : string :=
  if r <? 0 then replacement
  else if r <? 0x80 then str1 r
  else if r <? 0x800 then
    str1 (Z.lor 0xC0 (Z.shiftr r 6)) ++ str1 (Z.lor 0x80 (Z.land r 0x3F))
  else if (0xD800 <=? r) && (r <=? 0xDFFF) then replacement
  else if r <? 0x10000 then
    str1 (Z.lor 0xE0 (Z.shiftr r 12)) ++
    str1 (Z.lor 0x80 (Z.land (Z.shiftr r 6) 0x3F)) ++
    str1 (Z.lor 0x80 (Z.land r 0x3F))
  else if r <=? 0x10FFFF then
    str1 (Z.lor 0xF0 (Z.shiftr r 18)) ++
    str1 (Z.lor 0x80 (Z.land (Z.shiftr r 12) 0x3F)) ++
    str1 (Z.lor 0x80 (Z.land (Z.shiftr r 6) 0x3F)) ++
    str1 (Z.lor 0x80 (Z.land r 0x3F))
  else replacement.

Definition hexVal (c : ascii) : Z :=
  let b := byte c in
  if (48 <=? b) && (b <=? 57) then b - 48
  else if (97 <=? b) && (b <=? 102) then b - 97 + 10
  else if (65 <=? b) && (b <=? 70) then b - 65 + 10
  else -1.

(** [getu4]: the code unit of a [\uXXXX] at the head of [s], or -1. *)
Definition getu4 (s : string) : Z :=
  match s with
  | String bs (String u (String h1 (String h2 (String h3 (String h4 _))))) =>
    if (byte bs =? 92) && (byte u =? 117)
       && isHex h1 && isHex h2 && isHex h3 && isHex h4
    then ((hexVal h1 * 16 + hexVal h2) * 16 + hexVal h3) * 16 + hexVal h4
    else -1
  | _ => -1
  end.

(** [utf16.DecodeRune]. *)
Definition utf16_DecodeRune (r1 r2 : Z) : Z :=
  if (0xD800 <=? r1) && (r1 <? 0xDC00) && (0xDC00 <=? r2) && (r2 <? 0xE000)
  then Z.lor (Z.shiftl (r1 - 0xD800) 10) (r2 - 0xDC00) + 0x10000
  else 0xFFFD.

(** The byte a two-character escape stands for, or -1. *)
Definition escaped (b : Z) : Z :=
  if (b =? 34) || (b =? 92) || (b =? 47) || (b =? 39) then b
  else if b =? 98 then 8
  else if b =? 102 then 12
  else if b =? 110 then 10
  else if b =? 114 then 13
  else if b =? 116 then 9
  else -1.

(** The text a raw literal stands for: escapes resolved, malformed UTF-8
    replaced by U+FFFD. A literal the scanner accepted never takes the
    failure branches, which end the text here. *)
Fixpoint unquoteFrom (fuel : nat) (s : string) {struct fuel} : string :=
  match fuel with
  | O => EmptyString
  | S fuel' =>
    match s with
    | EmptyString => EmptyString
    | String c s' =>
      let b := byte c in
      if b =? 92 then
        match s' with
        | EmptyString => EmptyString
        | String e s'' =>
          if byte e =? 117 then
            let rr := getu4 s in
            if rr <? 0 then EmptyString
            else
              let s3 := drop 4 s'' in
              if (0xD800 <=? rr) && (rr <? 0xE000) then
                let dec := utf16_DecodeRune rr (getu4 s3) in
                if dec =? 0xFFFD then replacement ++ unquoteFrom fuel' s3
                else encodeRune dec ++ unquoteFrom fuel' (drop 6 s3)
              else encodeRune rr ++ unquoteFrom fuel' s3
          else if escaped (byte e) <? 0 then EmptyString
          else String (chr (escaped (byte e))) (unquoteFrom fuel' s'')
        end
      else if (b =? 34) || (b <? 32) then EmptyString
      else if b <? 0x80 then String c (unquoteFrom fuel' s')
      else
        match utf8Len s with
        | O => replacement ++ unquoteFrom fuel' s'
        | n => take n s ++ unquoteFrom fuel' (drop n s)
        end
    end
  end.

Definition unquote (raw : string) : string := unquoteFrom (String.length raw) raw.

(** ** Matching an object key with a field name

    The decoder takes the field whose name equals the key, or else equals
    it under Unicode simple case folding. For the names used here (letters
    of a, c, e, i, m, n, o, t only) a key folds to the name exactly when it
    equals it up to ASCII case. *)
Definition upper (c : ascii) : ascii :=
  let b := byte c in if (97 <=? b) && (b <=? 122) then chr (b - 32) else c.

Fixpoint equalFold (a b : string) : bool :=
  match a, b with
  | EmptyString, EmptyString => true
  | String x a', String y b' => Ascii.eqb (upper x) (upper y) && equalFold a' b'
  | _, _ => false
  end.

(** ** time.Time: the strict RFC 3339 parser ([parseRFC3339]) *)

Fixpoint parseDigits (s : string) (acc : Z) : option Z :=
  match s with
  | EmptyString => Some acc
  | String c s' => if isDigit c then parseDigits s' (acc * 10 + (byte c - 48)) else None
  end.

Definition parseUint (s : string) (min max : Z) : option Z :=
  match parseDigits s 0 with
  | Some x => if (x <? min) || (max <? x) then None else Some x
  | None => None
  end.

Definition isLeap (year : Z) : bool :=
  (year mod 4 =? 0) && (negb (year mod 100 =? 0) || (year mod 400 =? 0)).

Definition daysIn (month year : Z) : Z :=
  if (month =? 2) && isLeap year then 29
  else if month =? 2 then 28
  else if (month =? 4) || (month =? 6) || (month =? 9) || (month =? 11) then 30
  else 31.

(** Days from 1970-01-01 to the given day of the proleptic Gregorian
    calendar. *)
Definition daysSinceEpoch (year month day : Z) : Z :=
  let y := if month <=? 2 then year - 1 else year in
  let era := y / 400 in
  let yoe := y - era * 400 in
  let mp := if 2 <? month then month - 3 else month + 9 in
  let doy := (153 * mp + 2) / 5 + day - 1 in
  let doe := yoe * 365 + yoe / 4 - yoe / 100 + doy in
  era * 146097 + doe - 719468.

Definition charAt (s : string) (i : nat) (b : Z) : bool :=
  match String.get i s with
  | Some c => byte c =? b
  | None => false
  end.

Definition slice (s : string) (from to : nat) : string :=
  take (to - from) (drop from s).

(** The nanoseconds of a fraction [.ddd...] of [n] bytes, point included:
    its first nine digits ([parseNanoseconds]). *)
Definition parseNanoseconds (s : string) (n : nat) : Z :=
  let nbytes := Nat.min n 10 in
  match parseDigits (slice s 1 nbytes) 0 with
  | Some ns => ns * 10 ^ Z.of_nat (10 - nbytes)
  | None => 0
  end.

Definition parseRFC3339 (s : string) : option time_Time :=
  if (String.length s <? 19)%nat then None
  else
    match parseUint (slice s 0 4) 0 9999, parseUint (slice s 5 7) 1 12 with
    | Some year, Some month =>
      match parseUint (slice s 8 10) 1 (daysIn month year),
            parseUint (slice s 11 13) 0 23,
            parseUint (slice s 14 16) 0 59,
            parseUint (slice s 17 19) 0 59 with
      | Some day, Some hour, Some min, Some sec =>
        if negb (charAt s 4 45 && charAt s 7 45 && charAt s 10 84
                 && charAt s 13 58 && charAt s 16 58)
        then None
        else
          let s1 := drop 19 s in
          let (nsec, s2) :=
            match s1 with
            | String p (String d _) =>
              if (byte p =? 46) && isDigit d then
                let n := S (String.length (fst (spanDigits (drop 1 s1)))) in
                (parseNanoseconds s1 n, drop n s1)
              else (0, s1)
            | _ => (0, s1)
            end in
          let unix :=
            daysSinceEpoch year month day * 86400 + hour * 3600 + min * 60 + sec in
          if (String.length s2 =? 1)%nat && charAt s2 0 90 then
            Some (unix * 1000000000 + nsec)
          else if negb (String.length s2 =? 6)%nat then None
          else
            match parseUint (slice s2 1 3) 0 23, parseUint (slice s2 4 6) 0 59 with
            | Some hr, Some mm =>
              if negb ((charAt s2 0 45 || charAt s2 0 43) && charAt s2 3 58) then None
              else
                let zoneOffset := (hr * 60 + mm) * 60 in
                let zoneOffset := if charAt s2 0 45 then - zoneOffset else zoneOffset in
                Some ((unix - zoneOffset) * 1000000000 + nsec)
            | _, _ => None
            end
      | _, _, _, _ => None
      end
    | _, _ => None
    end.

Section Unmarshal.

(** [time.Parse(time.RFC3339, s)], which [Time.UnmarshalJSON] falls back to
    for a text the strict parser refuses. *)
Variable time_Parse_RFC3339 : string -> result time_Time.

Definition parseStrictRFC3339 (s : string) : result time_Time :=
  match parseRFC3339 s with
  | Some t => Ok t
  | None => time_Parse_RFC3339 s
  end.

(** [Time.UnmarshalJSON] on the text of a value; [t] is the time held
    before. The text of a string value is its raw literal. *)
Definition Time_UnmarshalJSON (v : value) (t : time_Time) : result time_Time :=
  match v with
  | Null => Ok t
  | Str raw => parseStrictRFC3339 raw
  | _ => Err "Time.UnmarshalJSON: input is not a JSON string"
  end.

(** A value stored into a [string] field: a type mismatch is saved (the
    first one is what [Unmarshal] returns in the end) and decoding goes on. *)
Definition storeString (v : value) (old : string) (saved : option error)
  : string * option error :=
  match v with
  | Str raw => (unquote raw, saved)
  | Null => (old, saved)
  | _ =>
    (old,
     match saved with
     | Some e => Some e
     | None => Some "json: cannot unmarshal value into Go struct field of type string"
     end)
  end.

Fixpoint object_instanceAction (ms : list (string * value)) (ia : instanceAction)
  (saved : option error) : result instanceAction :=
  match ms with
  | [] =>
    match saved with
    | Some e => Err e
    | None => Ok ia
    end
  | (rawkey, v) :: ms' =>
    let key := unquote rawkey in
    if equalFold key "action" then
      let (a, saved') := storeString v (Action ia) saved in
      object_instanceAction ms' {| Action := a; Time := Time ia |} saved'
    else if equalFold key "time" then
      match Time_UnmarshalJSON v (Time ia) with
      | Ok t => object_instanceAction ms' {| Action := Action ia; Time := t |} saved
      | Err e => Err e
      end
    else object_instanceAction ms' ia saved
  end.

Fixpoint object_instanceEvent (ms : list (string * value)) (ie : instanceEvent)
  (saved : option error) : result instanceEvent :=
  match ms with
  | [] =>
    match saved with
    | Some e => Err e
    | None => Ok ie
    end
  | (rawkey, v) :: ms' =>
    let key := unquote rawkey in
    if equalFold key "noticeTime" then
      match Time_UnmarshalJSON v (NoticeTime ie) with
      | Ok t => object_instanceEvent ms' {| NoticeTime := t |} saved
      | Err e => Err e
      end
    else object_instanceEvent ms' ie saved
  end.

(** [json.Unmarshal(data, &ia)] with [ia] the zero [instanceAction]. *)
Definition Unmarshal_instanceAction (data : string) : result instanceAction :=
  match parse data with
  | None => Err "invalid JSON input"
  | Some (Object ms) =>
    object_instanceAction ms {| Action := EmptyString; Time := zeroTime |} None
  | Some Null => Ok {| Action := EmptyString; Time := zeroTime |}
  | Some _ => Err "json: cannot unmarshal into Go value of type main.instanceAction"
  end.

(** [json.Unmarshal(data, &ie)] with [ie] the zero [instanceEvent]. *)
Definition Unmarshal_instanceEvent (data : string) : result instanceEvent :=
  match parse data with
  | None => Err "invalid JSON input"
  | Some (Object ms) => object_instanceEvent ms {| NoticeTime := zeroTime |} None
  | Some Null => Ok {| NoticeTime := zeroTime |}
  | Some _ => Err "json: cannot unmarshal into Go value of type main.instanceEvent"
  end.

End Unmarshal.



End GoJSON.

(** * Node labels (labels.go) and start-up (main.go)

    The Kubernetes client and the process environment are an interface,
    [Cluster]. A Go map is an association list with one entry per key;
    [range] over the node's labels visits them in an order the language
    leaves open, which is here the order of the list the node carries. *)

(** ** sanitizeLabelName (labels.go, lines 34-41) *)

(** The bytes the class [a-zA-Z0-9_] holds. *)
Definition validLabelChar (c : ascii) : bool :=
  let b := GoJSON.byte c in
  ((97 <=? b) && (b <=? 122)) || ((65 <=? b) && (b <=? 90)) ||
  ((48 <=? b) && (b <=? 57)) || (b =? 95).

(** [invalidLabelCharRE.ReplaceAllString(name, "_")]: the expression matches
    one rune at a time, every rune outside the class. The string is read as
    UTF-8: a byte of the class stays, any other ASCII byte and any
    well-formed sequence of several bytes becomes one underscore, and a byte
    that starts no well-formed sequence is read as one rune (the replacement
    rune, of width 1) and becomes an underscore too. [skip] counts the
    continuation bytes left of the rune being replaced. *)
Fixpoint replaceInvalidLabelChars (skip : nat) (name : string) : string :=
  match name with
  | EmptyString => EmptyString
  | String c rest =>
    match skip with
    | S skip' => replaceInvalidLabelChars skip' rest
    | O =>
      if validLabelChar c then String c (replaceInvalidLabelChars 0 rest)
      else String "_" (replaceInvalidLabelChars (Nat.pred (GoJSON.utf8Len name)) rest)
    end
  end.

(** [unicode.IsDigit(rune(b))] for a byte [b]: below 256 the digits are
    0 to 9. *)
Definition unicode_IsDigit_byte (c : ascii) : bool := GoJSON.isDigit c.

Definition sanitizeLabelName (name : string) : string :=
  let sanitized := replaceInvalidLabelChars 0 name in
  match sanitized with
  | String c0 _ =>
    if unicode_IsDigit_byte c0 then ("_" ++ sanitized)%string else sanitized
  | EmptyString => sanitized
  end.

(** A label name of the classic Prometheus form: a letter or an underscore,
    then letters, digits and underscores. *)
Fixpoint allValid (s : string) : bool :=
  match s with
  | EmptyString => true
  | String c s' => validLabelChar c && allValid s'
  end.

Definition wellFormedLabelName (s : string) : bool :=
  match s with
  | EmptyString => false
  | String c _ => negb (GoJSON.isDigit c) && allValid s
  end.

(** ** Go maps with string keys *)

Fixpoint map_get (m : Labels) (k : string) : option string :=
  match m with
  | [] => None
  | (k', v) :: m' => if String.eqb k' k then Some v else map_get m' k
  end.

(** [m[k] = v] *)
Fixpoint map_set (m : Labels) (k v : string) : Labels :=
  match m with
  | [] => [(k, v)]
  | (k', v') :: m' =>
    if String.eqb k' k then (k, v) :: m' else (k', v') :: map_set m' k v
  end.

Definition keys (m : Labels) : list string := map fst m.

(** The name a node label is filed under. *)
Definition sanitizedKey (kv : string * string) : string := sanitizeLabelName (fst kv).

(** ** getNodeLabels (labels.go, lines 43-75) *)

(** What a function that may end the process gives: its results, or the
    exit with what it printed last. *)
Inductive Outcome (A : Type) : Type :=
| Returned (a : A)
| Exited (code : Z) (format : string) (args : list string).
Arguments Returned {A} a.
Arguments Exited {A} code format args.

Class Cluster : Type := {
  Config : Type;
  Clientset : Type;
  (** [os.Getenv] *)
  os_Getenv : string -> string;
  (** [clientcmd.BuildConfigFromFlags(masterUrl, kubeconfigPath)] *)
  clientcmd_BuildConfigFromFlags : string -> string -> result Config;
  (** [rest.InClusterConfig()] *)
  rest_InClusterConfig : result Config;
  (** the deferred-loading client configuration with an empty explicit path
      and no overrides, asked for its [ClientConfig()] *)
  clientcmd_DeferredLoading_ClientConfig : result Config;
  (** [kubernetes.NewForConfig(cfg)] *)
  kubernetes_NewForConfig : Config -> result Clientset;
  (** [cs.CoreV1().Nodes().Get(ctx, name, metav1.GetOptions{})] under the
      ten-second deadline, reduced to the labels of the node, in the order
      [range] visits them *)
  Nodes_Get : Clientset -> string -> result Labels
}.

(** [buildConfig] (lines 20-32). *)
Definition buildConfig `{Cluster} (kubeconfig : string) : result Config :=
  if negb (String.eqb kubeconfig "") then
    clientcmd_BuildConfigFromFlags "" kubeconfig
  else
    match rest_InClusterConfig with
    | Ok cfg => Ok cfg
    | Err _ => clientcmd_DeferredLoading_ClientConfig
    end.

(** The loop of lines 69-72 over the labels in visiting order. *)
Definition sanitizeLabels (nodeLabels : Labels) : Labels :=
  fold_left (fun sanitizedLabels kv =>
               map_set sanitizedLabels (sanitizeLabelName (fst kv)) (snd kv))
            nodeLabels [].

(** [log.Fatalf] of the standard logger prints and exits with status 1. *)
Definition log_Fatalf {A : Type} (format : string) (args : list string) : Outcome A :=
  Exited 1 format args.

Definition getNodeLabels `{Cluster} (kubeconfig : string) : Outcome (result Labels) :=
  let nodeName := os_Getenv "NODE_NAME" in
  if String.eqb nodeName "" then
    Returned (Err "required NODE_NAME not set")
  else
    match buildConfig kubeconfig with
    | Err err => log_Fatalf "load config: %v" [err]
    | Ok cfg =>
      match kubernetes_NewForConfig cfg with
      | Err err => log_Fatalf "clientset: %v" [err]
      | Ok cs =>
        match Nodes_Get cs nodeName with
        | Err err => log_Fatalf "get node %q: %v" [nodeName; err]
        | Ok labels => Returned (Ok (sanitizeLabels labels))
        end
      end
    end.

(** ** main (main.go, lines 42-52): from the flags to the registered
    collector *)



(** ** Further vocabulary of the scrape *)

(** The request [getIMDSv2Token] sends. *)
Definition tokenRequest (url : string) : Request :=
  Header_Add {| Method := "PUT"; URL := url; Header := [] |}
    "X-aws-ec2-metadata-token-ttl-seconds" "21600".


(** * A metadata service for concrete runs

    It answers by method and URL from a fixed table and refuses the
    connection for any other request; its clock counts nanoseconds from the
    Unix epoch and every request takes a millisecond. JSON is decoded as
    [GoJSON] does, and a time the strict parser refuses is an error. *)
Module Mock.

Definition Routes : Type := list (string * string * result Response).

Fixpoint lookup (routes : Routes) (method url : string) : result Response :=
  match routes with
  | [] => Err "connection refused"
  | (m, u, r) :: rest =>
    if String.eqb m method && String.eqb u url then r else lookup rest method url
  end.

(** [url.Parse] refuses a URL that holds an ASCII control character. *)
Fixpoint hasCTLByte (s : string) : bool :=
  match s with
  | EmptyString => false
  | String c s' =>
    let b := GoJSON.byte c in (b <? 32) || (b =? 127) || hasCTLByte s'
  end.

Definition time_Parse_RFC3339 (s : string) : result time_Time :=
  Err "parsing time: cannot parse as RFC 3339".

Lemma clock_not_before_zero (w : N) : zeroTime <= Z.of_N w.
Proof. unfold zeroTime, time_Second. lia. Qed.

Definition runtime (routes : Routes) : Runtime :=
  {| World := N;
     url_Parse_err := fun u =>
       if hasCTLByte u then Some "net/url: invalid control character in URL"
       else None;
     client_Do := fun _ req w => (lookup routes (Method req) (URL req), (w + 1000000)%N);
     time_Now := fun w => Z.of_N w;
     time_Now_not_before_zero := clock_not_before_zero;
     json_Unmarshal_instanceAction := GoJSON.Unmarshal_instanceAction time_Parse_RFC3339;
     json_Unmarshal_instanceEvent := GoJSON.Unmarshal_instanceEvent time_Parse_RFC3339 |}.

Definition respond (status : Z) (body : string) : result Response :=
  Ok {| StatusCode := status; Body := body; BodyErr := None |}.

Definition quoted (s : string) : string :=
  String (ascii_of_nat 34) s ++ String (ascii_of_nat 34) EmptyString.

Definition base : string := "http://169.254.169.254/latest/meta-data/".
Definition tokenURL : string := "http://169.254.169.254/latest/api/token".

Definition collector (v2 : bool) : terminationCollector :=
  NewTerminationCollector base tokenURL v2 [].

(** 2026-10-31T12:00:00Z on the clock. *)
Definition noon : N := 1793448000000000000.

(** A termination notice for the given time. *)
Definition notice (time : string) : string :=
  "{" ++ quoted "action" ++ ":" ++ quoted "terminate" ++ ","
      ++ quoted "time" ++ ":" ++ quoted time ++ "}".

Definition rebalance_notice : string :=
  "{" ++ quoted "noticeTime" ++ ":" ++ quoted "2026-10-31T11:58:00Z" ++ "}".

Definition get (path : string) (r : result Response)
  : string * string * result Response :=
  ("GET", (base ++ path)%string, r).

(** A service that knows the instance, and answers as [rs] besides. *)
Definition instance (rs : Routes) : Routes :=
  (get "instance-id" (respond 200 "i-1234") ::
   get "instance-type" (respond 200 "m5.large") :: rs)%list.

(** The scenarios of the concrete runs. *)

(** The instance-id endpoint answers 404. *)
Definition no_identity : Runtime := runtime [get "instance-id" (respond 404 "")].

(** Nothing answers: with IMDSv2 the token negotiation fails. *)
Definition unreachable : Runtime := runtime [].


(** No termination notice (404), rebalance recommended. *)
Definition quiet : Runtime :=
  runtime (instance [get "spot/instance-action" (respond 404 "");
                     get "events/recommendations/rebalance"
                       (respond 200 rebalance_notice)]).

(** A termination notice two minutes after [noon]. *)
Definition terminating : Runtime :=
  runtime (instance [get "spot/instance-action"
                       (respond 200 (notice "2026-10-31T12:02:00Z"))]).




End Mock.

(** * A cluster and further services for concrete runs *)
Module MockNode.
Import Mock.

(** Both optional endpoints answer 404: a spot instance with nothing
    announced. *)
Definition idle : Runtime :=
  runtime (instance [get "spot/instance-action" (respond 404 "");
                     get "events/recommendations/rebalance" (respond 404 "")]).

(** The token endpoint answers 403 with a body; the metadata endpoints
    answer as for [idle]. *)
Definition forbidden_token : Runtime :=
  runtime (("PUT", tokenURL, respond 403 "Forbidden") ::
           instance [get "spot/instance-action" (respond 404 "");
                     get "events/recommendations/rebalance" (respond 404 "")])%list.

(** A cluster that is reached with any configuration and knows one node;
    NODE_NAME is set to [nodeName]. *)
Definition cluster (nodeName me : string) (labels : Labels) : Cluster :=
  {| Config := unit;
     Clientset := unit;
     os_Getenv := fun key => if String.eqb key "NODE_NAME" then nodeName else "";
     clientcmd_BuildConfigFromFlags := fun _ _ => Ok tt;
     rest_InClusterConfig := Ok tt;
     clientcmd_DeferredLoading_ClientConfig := Err "invalid configuration";
     kubernetes_NewForConfig := fun _ => Ok tt;
     Nodes_Get := fun _ name =>
       if String.eqb name me then Ok labels else Err "nodes not found" |}.

(** The labels of a node, some of them sanitized to the same name. *)
Definition zone : string * string := ("topology.kubernetes.io/zone", "eu-west-1a").
Definition arch : string * string := ("kubernetes.io/arch", "amd64").
Definition team_dot : string * string := ("team.name", "red").
Definition team_slash : string * string := ("team/name", "blue").


End MockNode.

(** * Proofs *)

(** ** The client methods: what one call does to the state *)

Ltac token_phase :=
  first [ apply Tok_off; assumption | apply Tok_on; assumption ].

Ltac phase :=
  solve [ econstructor; first [ eassumption | apply time_Now_not_before_zero ] ].

Ltac readings :=
  cbn; try match goal with H : gt0 _ = _ |- _ => rewrite H end; reflexivity.

Lemma Scraped_id_failed `{Runtime} (c : terminationCollector) token (pre : list Event) r tr :
  tr = (pre ++ [EvFetch (idURL c) token r])%list ->
  TokenPhase c token pre ->
  failed_or_404 r ->
  Scraped c tr [].
Proof. intros ->. apply S_id_failed. Qed.

Lemma Scraped_type_failed `{Runtime} (c : terminationCollector) token (pre : list Event) idr r tr :
  tr = (pre ++ [EvFetch (idURL c) token (Ok idr); EvFetch (typeURL c) token r])%list ->
  TokenPhase c token pre ->
  StatusCode idr <> 404 ->
  failed_or_404 r ->
  Scraped c tr [].
Proof. intros ->. apply S_type_failed. Qed.

Lemma Scraped_completed `{Runtime} (c : terminationCollector) token (pre : list Event)
  idr tyr ar rr (clock : list Event) (T R' : list Metric) tr out :
  tr = (pre ++ [EvFetch (idURL c) token (Ok idr);
                EvFetch (typeURL c) token (Ok tyr);
                EvFetch (actionURL c) token ar] ++ clock ++
               [EvFetch (rebalanceURL c) token rr])%list ->
  TokenPhase c token pre ->
  StatusCode idr <> 404 ->
  StatusCode tyr <> 404 ->
  TerminationPhase c (Body idr) (Body tyr) ar clock T ->
  RebalancePhase c (Body idr) (Body tyr) rr R' ->
  out = (T ++ R')%list ->
  Scraped c tr out.
Proof. intros -> ? ? ? ? ? ->. now apply S_completed. Qed.

Ltac classify c :=
  first
    [ apply S_token_failed; assumption
    | eapply (Scraped_id_failed c _ []); [ reflexivity | token_phase | cbn; auto ]
    | eapply (Scraped_id_failed c _ [_]); [ reflexivity | token_phase | cbn; auto ]
    | eapply (Scraped_type_failed c _ []);
      [ reflexivity | token_phase | assumption | cbn; auto ]
    | eapply (Scraped_type_failed c _ [_]);
      [ reflexivity | token_phase | assumption | cbn; auto ]
    | eapply (Scraped_completed c _ [] _ _ _ _ []);
      [ reflexivity | token_phase | assumption | assumption | phase | phase | readings ]
    | eapply (Scraped_completed c _ [] _ _ _ _ [_]);
      [ reflexivity | token_phase | assumption | assumption | phase | phase | readings ]
    | eapply (Scraped_completed c _ [_] _ _ _ _ []);
      [ reflexivity | token_phase | assumption | assumption | phase | phase | readings ]
    | eapply (Scraped_completed c _ [_] _ _ _ _ [_]);
      [ reflexivity | token_phase | assumption | assumption | phase | phase | readings ] ].

Lemma getIMDSv2Token_spec `{Runtime} (client : http_Client) (url : string) (s : State) :
  exists r w, getIMDSv2Token client url s = (Next r, observed s w (EvToken url r)).
Proof.
  unfold getIMDSv2Token, http_NewRequest, bind, ret, observe, Do, io_ReadAll, observed.
  destruct (url_Parse_err url); cbn; eauto.
  destruct (client_Do _ _ _) as [[resp | e] w']; cbn; eauto.
  destruct (BodyErr resp); cbn; eauto.
Qed.

Lemma getResponse_spec `{Runtime} (client : http_Client) (url token : string) (s : State) :
  exists r w, getResponse client url token s = (Next r, observed s w (EvFetch url token r)).
Proof.
  unfold getResponse, http_NewRequest, bind, ret, observe, Do, observed.
  destruct (url_Parse_err url); cbn; eauto.
  destruct (client_Do _ _ _) as [r w']; cbn; eauto.
Qed.

Ltac call :=
  match goal with
  | |- context [getIMDSv2Token ?cl ?u ?s] =>
      let E := fresh "E" in
      destruct (getIMDSv2Token_spec cl u s) as ([? | ?] & ? & E); rewrite E; clear E
  | |- context [getResponse ?cl ?u ?t ?s] =>
      let E := fresh "E" in
      destruct (getResponse_spec cl u t s) as ([? | ?] & ? & E); rewrite E; clear E
  | |- context [if StatusCode ?r =? 404 then _ else _] =>
      destruct (Z.eqb_spec (StatusCode r) 404)
  | |- context [match json_Unmarshal_instanceAction ?b with _ => _ end] =>
      destruct (json_Unmarshal_instanceAction b) eqn:?
  | |- context [match json_Unmarshal_instanceEvent ?b with _ => _ end] =>
      destruct (json_Unmarshal_instanceEvent b) eqn:?
  | |- context [if gt0 ?x then _ else _] =>
      destruct (gt0 x) eqn:?
  end; cbn -[getIMDSv2Token getResponse].

(** Every scrape follows one of the paths, and leaves the collector as it
    found it. *)
Lemma scrape_Scraped `{Runtime} (c : terminationCollector) (w : World) :
  Scraped c (trace (scrape c w)) (ch (scrape c w)) /\ self (scrape c w) = c.
Proof.
  unfold scrape, Collect, bind, ret, return_, field, send, log_, Until, io_ReadAll,
    init, observed.
  cbn -[getIMDSv2Token getResponse].
  destruct (useIMDSv2 c) eqn:Hv2; cbn -[getIMDSv2Token getResponse].
  all: repeat call.
  all: unfold time_Until in *.
  all: (split; [ | reflexivity ]).
  all: classify c.
Qed.

Lemma scrape_paths `{Runtime} (c : terminationCollector) (w : World) :
  Scraped c (trace (scrape c w)) (ch (scrape c w)).
Proof. apply scrape_Scraped. Qed.

(** ** Reading a trace *)

Lemma append_inv_head (p a b : string) : (p ++ a)%string = (p ++ b)%string -> a = b.
Proof.
  induction p as [|x p IH]; cbn; intros E.
  - exact E.
  - injection E as E. auto.
Qed.

Lemma TokenPhase_events (c : terminationCollector) token pre ev :
  TokenPhase c token pre -> In ev pre ->
  ev = EvToken (tokenEndpoint c) (Ok token) /\ useIMDSv2 c = true.
Proof.
  intros [Hoff | tok Hon] Hin; cbn in Hin.
  - destruct Hin.
  - destruct Hin as [<- | []]. auto.
Qed.

Lemma TerminationPhase_clock `{Runtime} (c : terminationCollector) id ty ar clock T ev :
  TerminationPhase c id ty ar clock T -> In ev clock -> exists now, ev = EvNow now.
Proof.
  intros P Hin. destruct P; cbn in Hin; try contradiction.
  destruct Hin as [<- | []]. eauto.
Qed.

Ltac url_clash :=
  match goal with
  | H : (?p ++ _)%string = (?p ++ _)%string |- _ =>
      apply append_inv_head in H; discriminate H
  end.

Ltac in_trace :=
  repeat
    match goal with
    | H : In _ (_ ++ _) |- _ => apply in_app_or in H; destruct H as [H | H]
    | H : In _ (_ :: _) |- _ => destruct H as [H | H]
    | H : In _ [] |- _ => destruct H
    | H : In _ ?pre, P : TokenPhase _ _ ?pre |- _ =>
        destruct (TokenPhase_events _ _ _ _ P H) as [? ?]; clear H
    | H : In _ ?clock, P : TerminationPhase _ _ _ _ ?clock _ |- _ =>
        destruct (TerminationPhase_clock _ _ _ _ _ _ _ P H) as [? ?]; clear H
    | H : EvFetch _ _ _ = EvToken _ _ |- _ => discriminate H
    | H : EvToken _ _ = EvFetch _ _ _ |- _ => discriminate H
    | H : EvFetch _ _ _ = EvNow _ |- _ => discriminate H
    | H : EvNow _ = EvFetch _ _ _ |- _ => discriminate H
    | H : EvToken _ _ = EvNow _ |- _ => discriminate H
    | H : EvNow _ = EvToken _ _ |- _ => discriminate H
    | H : EvFetch _ _ _ = EvFetch _ _ _ |- _ =>
        unfold idURL, typeURL, actionURL, rebalanceURL in H;
        injection H; clear H; intros; try url_clash; subst
    | H : EvToken _ _ = EvToken _ _ |- _ => injection H; clear H; intros; subst
    | H : Ok _ = Err _ |- _ => discriminate H
    | H : Err _ = Ok _ |- _ => discriminate H
    | H : @Ok _ _ = Ok _ |- _ => injection H; clear H; intros; subst
    end.

(** The paths of [scrape c w], its trace and readings named by variables. *)
Ltac paths c w :=
  let H := fresh "Hpath" in
  pose proof (scrape_paths c w) as H;
  unfold fetched in *;
  repeat match goal with H' : exists _, _ |- _ => destruct H' as [? H'] end;
  let tr := fresh "tr" in
  let out := fresh "out" in
  set (tr := trace (scrape c w)) in *;
  set (out := ch (scrape c w)) in *;
  clearbody tr out;
  inversion H; subst; clear H.



Section Claims.
Context {R : Runtime}.

(** C1. In every scrape in which the instance-id fetch or the instance-type
    fetch returns a transport error or a response with status 404, nothing
    is sent on the channel (no reachability gauge either) and the failed
    fetch is the last thing the scrape does. *)
Theorem C1_identity_failure_emits_nothing (c : terminationCollector) (w : World)
  (url : string) (r : result Response) :
  url = idURL c \/ url = typeURL c ->
  fetched (scrape c w) url r ->
  failed_or_404 r ->
  ch (scrape c w) = [] /\
  exists pre token, trace (scrape c w) = (pre ++ [EvFetch url token r])%list.
Proof.
  intros Hurl Hf Hr.
  destruct Hurl as [-> | ->]; paths c w; in_trace; cbn in Hr; try contradiction.
  - eauto.
  - split; [ reflexivity | ].
    eexists (_ ++ [_])%list, _. rewrite <- app_assoc. reflexivity.
Qed.

(** C2. When token negotiation fails, nothing is sent on the channel and the
    failed negotiation is all the scrape does: no metadata fetch follows.
    (A token is negotiated only with IMDSv2 enabled, which the conclusion
    records.) *)
Theorem C2_token_failure_aborts (c : terminationCollector) (w : World) (e : error) :
  In (EvToken (tokenEndpoint c) (Err e)) (trace (scrape c w)) ->
  useIMDSv2 c = true /\
  ch (scrape c w) = [] /\
  trace (scrape c w) = [EvToken (tokenEndpoint c) (Err e)].
Proof.
  intros Hin. paths c w; in_trace; auto.
Qed.



End Claims.

(** ** Durations *)

Lemma Duration_Seconds_num (d : time_Duration) :
  Qnum (Duration_Seconds d) = d /\ Qden (Duration_Seconds d) = 1000000000%positive.
Proof.
  unfold Duration_Seconds, time_Second. cbn [Qplus Qnum Qden inject_Z].
  split; [ | reflexivity ].
  pose proof (Z.quot_rem' d 1000000000). lia.
Qed.


Lemma gt0_Seconds (d : time_Duration) : gt0 (Duration_Seconds d) = (0 <? d).
Proof.
  unfold gt0, Qle_bool. destruct (Duration_Seconds_num d) as [-> _].
  cbn [Qnum Qden]. rewrite Z.mul_1_r, Z.mul_0_l.
  destruct (Z.leb_spec d 0), (Z.ltb_spec 0 d); cbn; auto; lia.
Qed.

Lemma Seconds_pos (d : time_Duration) : 0 < d -> (0 < Duration_Seconds d)%Q.
Proof.
  intros Hd. unfold Qlt. destruct (Duration_Seconds_num d) as [-> _].
  cbn [Qnum Qden]. lia.
Qed.




Section Claims.
Context {R : Runtime}.




End Claims.



Section Claims.
Context {R : Runtime}.



End Claims.

(** ** Two scrapes against the same answers *)

Lemma replies_app (l1 l2 : list Event) :
  replies (l1 ++ l2) = (replies l1 ++ replies l2)%list.
Proof. apply flat_map_app. Qed.

Lemma clock_readings_app (l1 l2 : list Event) :
  clock_readings (l1 ++ l2) = (clock_readings l1 ++ clock_readings l2)%list.
Proof. apply flat_map_app. Qed.

Lemma fetch_tokens_app (l1 l2 : list Event) :
  fetch_tokens (l1 ++ l2) = (fetch_tokens l1 ++ fetch_tokens l2)%list.
Proof. apply flat_map_app. Qed.

Lemma TerminationPhase_silent `{Runtime} (c : terminationCollector) id ty ar clock T :
  TerminationPhase c id ty ar clock T ->
  replies clock = [] /\ fetch_tokens clock = [].
Proof. intros P. destruct P; auto. Qed.

Lemma TokenPhase_silent (c : terminationCollector) token pre :
  TokenPhase c token pre -> clock_readings pre = [] /\ fetch_tokens pre = [].
Proof. intros P. destruct P; auto. Qed.

Lemma TokenPhase_replies (c : terminationCollector) token pre :
  TokenPhase c token pre ->
  replies pre = if useIMDSv2 c then [RToken (Ok token)] else [].
Proof. intros P. destruct P as [E | tok E]; rewrite E; reflexivity. Qed.

Lemma eta_only_if (c : terminationCollector) (b : bool) v id ty :
  eta_only c (if b then [eta c v id ty] else []).
Proof. destruct b; [ right; eauto | left; reflexivity ]. Qed.

(** The termination phase is a function of its fetch and of the clock: two
    runs on the same fetch differ in the eta reading at most. *)
Lemma TerminationPhase_agree `{Runtime} (c : terminationCollector) id ty ar
  clock1 clock2 T1 T2 :
  TerminationPhase c id ty ar clock1 T1 ->
  TerminationPhase c id ty ar clock2 T2 ->
  (clock_readings clock1 = clock_readings clock2 -> T1 = T2) /\
  exists A E1 E2,
    T1 = (A ++ E1)%list /\ T2 = (A ++ E2)%list /\ eta_only c E1 /\ eta_only c E2.
Proof.
  intros P1 P2.
  inversion P1; subst; inversion P2; subst; try contradiction; try congruence.
  - split; [ reflexivity | ]. exists [available c 0 id], [], [].
    unfold eta_only; auto.
  - split; [ reflexivity | ].
    exists [available c 1 id; imminent c 0 "" id ty], [], [].
    unfold eta_only; auto.
  - split; [ reflexivity | ].
    exists [available c 1 id; imminent c 0 "" id ty], [], [].
    unfold eta_only; auto.
  - match goal with
    | E1 : json_Unmarshal_instanceAction ?b = Ok ?x,
      E2 : json_Unmarshal_instanceAction ?b = Ok ?y |- _ =>
        rewrite E1 in E2; injection E2 as E2; subst y
    end.
    split.
    + cbn. intros E. injection E as ->. reflexivity.
    + do 3 eexists. split; [ reflexivity | split; [ reflexivity | ] ].
      split; apply eta_only_if.
Qed.

Lemma RebalancePhase_functional `{Runtime} (c : terminationCollector) id ty rr R1 R2 :
  RebalancePhase c id ty rr R1 -> RebalancePhase c id ty rr R2 -> R1 = R2.
Proof.
  intros P1 P2.
  inversion P1; subst; inversion P2; subst; try contradiction; congruence.
Qed.

Lemma Scraped_tokens_fresh `{Runtime} (c : terminationCollector) tr out :
  Scraped c tr out -> tokens_fresh c tr.
Proof.
  intros S. inversion S; subst.
  - cbn. auto.
  - match goal with P : TokenPhase _ _ _ |- _ => destruct P end; cbn; auto.
  - match goal with P : TokenPhase _ _ _ |- _ => destruct P end; cbn; auto.
  - match goal with P : TerminationPhase _ _ _ _ _ _ |- _ =>
      destruct (TerminationPhase_silent _ _ _ _ _ _ P) as [_ Hc] end.
    match goal with P : TokenPhase _ _ _ |- _ => destruct P end; cbn;
      rewrite fetch_tokens_app, Hc; cbn; auto 10.
Qed.

Ltac same_flag :=
  match goal with
  | H1 : useIMDSv2 ?c = true, H2 : useIMDSv2 ?c = false |- _ =>
      rewrite H1 in H2; discriminate H2
  end.

Lemma Scraped_agree `{Runtime} (c : terminationCollector) tr1 tr2 out1 out2 :
  Scraped c tr1 out1 ->
  Scraped c tr2 out2 ->
  replies tr1 = replies tr2 ->
  (clock_readings tr1 = clock_readings tr2 -> out1 = out2) /\
  exists A E1 E2 B,
    out1 = (A ++ E1 ++ B)%list /\ out2 = (A ++ E2 ++ B)%list /\
    eta_only c E1 /\ eta_only c E2.
Proof.
  intros S1 S2 Hrep.
  inversion S1; subst; inversion S2; subst;
    repeat match goal with
           | P : TokenPhase _ _ _ |- _ => destruct P
           end;
    try same_flag;
    repeat match goal with
           | P : TerminationPhase _ _ _ _ ?clock _ |- _ =>
               lazymatch goal with
               | _ : replies clock = [] |- _ => fail
               | _ => destruct (TerminationPhase_silent _ _ _ _ _ _ P)
               end
           end;
    cbn in Hrep; rewrite ?replies_app in Hrep; cbn in Hrep;
    repeat match goal with
           | E : replies _ = [] |- _ => rewrite E in Hrep
           end;
    cbn in Hrep; try discriminate Hrep.
  all: try (split; [ intros _; reflexivity
                   | exists [], [], [], []; unfold eta_only; auto ]).
  all: injection Hrep; clear Hrep; intros; subst.
  all: match goal with
       | P1 : TerminationPhase _ _ _ _ _ ?T1, P2 : TerminationPhase _ _ _ _ _ ?T2,
         Q1 : RebalancePhase _ _ _ _ ?R1, Q2 : RebalancePhase _ _ _ _ ?R2 |- _ =>
           destruct (TerminationPhase_agree _ _ _ _ _ _ _ _ P1 P2)
             as (Hsame & A & E1 & E2 & -> & -> & HE1 & HE2);
           pose proof (RebalancePhase_functional _ _ _ _ _ _ Q1 Q2); subst R2
       end.
  all: split;
    [ intros Hclock; f_equal; apply Hsame;
      cbn in Hclock; rewrite ?clock_readings_app in Hclock; cbn in Hclock;
      rewrite ?app_nil_r in Hclock; exact Hclock
    | exists A, E1, E2; eexists; rewrite <- !app_assoc; eauto ].
Qed.

Section Claims.
Context {R : Runtime}.

(** C8 (amended). [Collect] keeps no state between scrapes: it leaves every
    field of the collector as it was, and the fetches of a scrape use the
    token negotiated in that same scrape. So when a second scrape of the
    same collector gets the same answers from the metadata service as the
    first, the two send the same readings, up to the termination-eta
    reading, which depends on the clock: the readings are equal when the
    clock reads the same, and otherwise differ in that one reading at most. *)
Theorem C8_stateless_up_to_eta (c : terminationCollector) (w w' : World) :
  replies (trace (scrape c w)) = replies (trace (scrape (self (scrape c w)) w')) ->
  self (scrape c w) = c /\
  self (scrape (self (scrape c w)) w') = c /\
  tokens_fresh c (trace (scrape c w)) /\
  tokens_fresh c (trace (scrape (self (scrape c w)) w')) /\
  (clock_readings (trace (scrape c w)) =
   clock_readings (trace (scrape (self (scrape c w)) w')) ->
   ch (scrape c w) = ch (scrape (self (scrape c w)) w')) /\
  exists A E1 E2 B,
    ch (scrape c w) = (A ++ E1 ++ B)%list /\
    ch (scrape (self (scrape c w)) w') = (A ++ E2 ++ B)%list /\
    eta_only c E1 /\ eta_only c E2.
Proof.
  destruct (scrape_Scraped c w) as [S1 ->].
  destruct (scrape_Scraped c w') as [S2 ->].
  intros Hrep.
  split; [ reflexivity | split; [ reflexivity | ] ].
  split; [ exact (Scraped_tokens_fresh _ _ _ S1) | ].
  split; [ exact (Scraped_tokens_fresh _ _ _ S2) | ].
  exact (Scraped_agree _ _ _ _ _ S1 S2 Hrep).
Qed.

End Claims.

(** ** Decoding a body that carries no field *)



Section Claims.
Context {R : Runtime}.


End Claims.

(** ** What every reading of a scrape looks like *)

(** A property that holds of each kind of reading [Collect] can send holds
    of every reading of every scrape. *)
Lemma Scraped_Forall `{Runtime} (c : terminationCollector) (P : Metric -> Prop)
  tr out :
  (forall id, P (available c 0 id)) ->
  (forall id, P (available c 1 id)) ->
  (forall id ty, P (imminent c 0 "" id ty)) ->
  (forall action id ty, P (imminent c 1 action id ty)) ->
  (forall d id ty, 0 < d -> P (eta c (Duration_Seconds d) id ty)) ->
  (forall id, P (events_available c 0 id)) ->
  (forall id, P (events_available c 1 id)) ->
  (forall id ty, P (recommended c 0 id ty)) ->
  (forall id ty, P (recommended c 1 id ty)) ->
  Scraped c tr out -> Forall P out.
Proof.
  intros A0 A1 I0 I1 E E0 E1 R0 R1 S.
  inversion S; subst; try constructor.
  apply Forall_app. split.
  - match goal with P : TerminationPhase _ _ _ _ _ _ |- _ => inversion P; subst end;
      repeat constructor; auto.
    cbn. destruct (gt0 _) eqn:G; repeat constructor; auto.
    apply E. rewrite gt0_Seconds in G. now apply Z.ltb_lt.
  - match goal with P : RebalancePhase _ _ _ _ _ |- _ => inversion P; subst end;
      repeat constructor; auto.
Qed.

Section Readings.
Context {R : Runtime}.

(** X1. Every reading is sent with as many label values as its descriptor
    declares labels, for a collector built by [NewTerminationCollector]:
    [MustNewConstMetric] is never given a wrong label count. *)
Theorem Collect_label_arity (me te : string) (v2 : bool) (nodeLabels : Labels)
  (w : World) :
  Forall (fun m => List.length (labelValues m) = List.length (variableLabels (desc m)))
    (ch (scrape (NewTerminationCollector me te v2 nodeLabels) w)).
Proof.
  eapply Scraped_Forall; [ .. | apply scrape_paths ]; intros; reflexivity.
Qed.

(** X2. Every reading a scrape sends is a gauge of one of the five descriptors
    [Describe] announces. *)
Theorem Collect_sends_described_gauges (c : terminationCollector) (w : World) :
  Forall (fun m => In (desc m) (Describe c) /\ valType m = GaugeValue)
    (ch (scrape c w)).
Proof.
  eapply Scraped_Forall; [ .. | apply scrape_paths ]; intros;
    (split; [ cbn; auto 10 | reflexivity ]).
Qed.

(** X3. The value of every reading is 0 or 1, except that of a termination-eta
    reading, which is positive. *)
Theorem Collect_values (c : terminationCollector) (w : World) :
  Forall (fun m => value m = 0%Q \/ value m = 1%Q \/
                   (desc m = terminationTime c /\ (0 < value m)%Q))
    (ch (scrape c w)).
Proof.
  eapply Scraped_Forall; [ .. | apply scrape_paths ]; intros; cbn; auto.
  right. right. split; [ reflexivity | now apply Seconds_pos ].
Qed.

(** X4. A scrape of a collector built by [NewTerminationCollector] sends at
    most five readings and no two of the same metric name. *)
Theorem Collect_no_duplicate_metric (me te : string) (v2 : bool)
  (nodeLabels : Labels) (w : World) :
  NoDup (map (fun m => fqName (desc m))
           (ch (scrape (NewTerminationCollector me te v2 nodeLabels) w))) /\
  (List.length (ch (scrape (NewTerminationCollector me te v2 nodeLabels) w)) <= 5)%nat.
Proof.
  pose proof (scrape_paths (NewTerminationCollector me te v2 nodeLabels) w) as S.
  inversion S; subst; try (split; [ constructor | cbn; lia ]).
  match goal with P : TerminationPhase _ _ _ _ _ _ |- _ => inversion P; subst end;
    match goal with P : RebalancePhase _ _ _ _ _ |- _ => inversion P; subst end;
    cbn; try destruct (gt0 _); cbn;
    (split; [ repeat constructor; cbn; intuition discriminate | lia ]).
Qed.

(** X5. Every reading of a scrape carries the body of the instance-id response
    as its instance id and, where the descriptor has the label, the body of
    the instance-type response as its instance type. *)
Theorem Collect_identity_labels (c : terminationCollector) (w : World)
  (idr tyr : Response) :
  fetched (scrape c w) (idURL c) (Ok idr) ->
  fetched (scrape c w) (typeURL c) (Ok tyr) ->
  Forall (fun m => labelValues m = [Body idr] \/
                   labelValues m = [Body idr; Body tyr] \/
                   exists action, labelValues m = [action; Body idr; Body tyr])
    (ch (scrape c w)).
Proof.
  intros Hid Hty. paths c w; in_trace; try solve [ constructor ].
  apply Forall_app. split.
  - match goal with P : TerminationPhase _ _ _ _ _ _ |- _ => inversion P; subst end;
      try (cbn; destruct (gt0 _));
      repeat apply Forall_cons; try apply Forall_nil; cbn; eauto.
  - match goal with P : RebalancePhase _ _ _ _ _ |- _ => inversion P; subst end;
      repeat apply Forall_cons; try apply Forall_nil; cbn; eauto.
Qed.

End Readings.

(** ** The log of a scrape *)

Ltac run_collect :=
  unfold scrape, Collect, bind, ret, return_, field, send, log_, Until, io_ReadAll,
    init, observed;
  cbn -[getIMDSv2Token getResponse];
  match goal with
  | |- context [useIMDSv2 ?c] => destruct (useIMDSv2 c) eqn:?
  end;
  cbn -[getIMDSv2Token getResponse];
  repeat call.

Section Logs.
Context {R : Runtime}.


(** X7. An optional endpoint that answers 404 is no error: when both do, the
    log holds the opening line and two debug lines, whatever else. *)
Theorem not_found_is_logged_at_debug (c : terminationCollector) (w : World)
  (ar rr : Response) :
  fetched (scrape c w) (actionURL c) (Ok ar) ->
  StatusCode ar = 404 ->
  fetched (scrape c w) (rebalanceURL c) (Ok rr) ->
  StatusCode rr = 404 ->
  logs (scrape c w) =
  [{| level := InfoLevel;
      format := "Fetching termination data from metadata-service";
      args := [] |};
   {| level := DebugLevel; format := "instance-action endpoint not found"; args := [] |};
   {| level := DebugLevel; format := "rebalance endpoint not found"; args := [] |}].
Proof.
  unfold fetched. run_collect.
  all: intros [t1 H1] Ha [t2 H2] Hr.
  all: repeat match goal with
              | H : _ \/ _ |- _ => destruct H as [H | H]
              | H : False |- _ => destruct H
              end.
  all: in_trace; try contradiction; reflexivity.
Qed.

End Logs.

(** ** Token negotiation *)

Lemma getIMDSv2Token_ok `{Runtime} (client : http_Client) (url : string) (s : State)
  (resp : Response) (w' : World) :
  url_Parse_err url = None ->
  client_Do client (tokenRequest url) (world s) = (Ok resp, w') ->
  BodyErr resp = None ->
  getIMDSv2Token client url s =
  (Next (Ok (Body resp)), observed s w' (EvToken url (Ok (Body resp)))).
Proof.
  intros Hurl Hdo Hbody.
  unfold getIMDSv2Token, http_NewRequest, bind, ret, observe, Do, io_ReadAll, observed.
  rewrite Hurl. cbn. unfold tokenRequest in Hdo. rewrite Hdo. cbn.
  rewrite Hbody. reflexivity.
Qed.

Section Token.
Context {R : Runtime}.

(** X8. The status of the token response is not looked at: whatever it is, a
    body that reads without error is the token, and the scrape goes on to
    fetch the instance id with it. *)
Theorem token_status_is_not_checked (c : terminationCollector) (w : World)
  (resp : Response) (w' : World) :
  useIMDSv2 c = true ->
  url_Parse_err (tokenEndpoint c) = None ->
  client_Do {| Timeout := 1 * time_Second |} (tokenRequest (tokenEndpoint c)) w =
    (Ok resp, w') ->
  BodyErr resp = None ->
  exists r rest,
    trace (scrape c w) =
    EvToken (tokenEndpoint c) (Ok (Body resp)) ::
    EvFetch (idURL c) (Body resp) r :: rest.
Proof.
  intros Hv2 Hurl Hdo Hbody.
  unfold scrape, Collect, bind, ret, return_, field, send, log_, Until, io_ReadAll,
    init, observed.
  cbn -[getIMDSv2Token getResponse].
  rewrite Hv2. cbn -[getIMDSv2Token getResponse].
  erewrite getIMDSv2Token_ok by eassumption.
  cbn -[getIMDSv2Token getResponse].
  repeat call.
  all: do 2 eexists; reflexivity.
Qed.

(** X9. Every reading of a collector built by [NewTerminationCollector] carries
    the node labels it was built with as its constant labels. *)
Theorem Collect_const_labels (me te : string) (v2 : bool) (nodeLabels : Labels)
  (w : World) :
  Forall (fun m => constLabels (desc m) = nodeLabels)
    (ch (scrape (NewTerminationCollector me te v2 nodeLabels) w)).
Proof.
  eapply Scraped_Forall; [ .. | apply scrape_paths ]; intros; reflexivity.
Qed.


(** X11. The clock is read at most once in a scrape, and only for a termination
    notice that decoded: the reading follows the imminent-termination
    reading of 1. *)
Theorem Collect_reads_clock_for_notice (c : terminationCollector) (w : World) :
  clock_readings (trace (scrape c w)) = [] \/
  exists now action id ty,
    clock_readings (trace (scrape c w)) = [now] /\
    In (imminent c 1 action id ty) (ch (scrape c w)).
Proof.
  paths c w;
    repeat match goal with P : TokenPhase _ _ _ |- _ => destruct P end;
    repeat match goal with P : TerminationPhase _ _ _ _ _ _ |- _ => destruct P end;
    try (left; reflexivity).
  all: right; do 4 eexists; split; [ reflexivity | cbn; eauto ].
Qed.

End Token.

(** ** sanitizeLabelName *)

Lemma validLabelChar_underscore : validLabelChar "_" = true.
Proof. reflexivity. Qed.

Lemma isDigit_underscore : GoJSON.isDigit "_" = false.
Proof. reflexivity. Qed.

Lemma replaceInvalidLabelChars_allValid (name : string) :
  forall skip, allValid (replaceInvalidLabelChars skip name) = true.
Proof.
  induction name as [| c rest IH]; intros skip; [ reflexivity | ].
  destruct skip as [| skip']; cbn [replaceInvalidLabelChars]; [ | apply IH ].
  destruct (validLabelChar c) eqn:V; cbn [allValid].
  - rewrite V. apply IH.
  - rewrite validLabelChar_underscore. apply IH.
Qed.

Lemma replaceInvalidLabelChars_valid (s : string) :
  allValid s = true -> replaceInvalidLabelChars 0 s = s.
Proof.
  induction s as [| c rest IH]; [ reflexivity | ].
  cbn [allValid replaceInvalidLabelChars]. intros H.
  apply andb_true_iff in H. destruct H as [V A].
  rewrite V, (IH A). reflexivity.
Qed.

Lemma replaceInvalidLabelChars_length (name : string) :
  forall skip,
    (String.length (replaceInvalidLabelChars skip name) <= String.length name)%nat.
Proof.
  induction name as [| c rest IH]; intros skip; [ apply Nat.le_refl | ].
  destruct skip as [| skip']; cbn [replaceInvalidLabelChars String.length].
  - destruct (validLabelChar c); cbn [String.length]; apply le_n_S, IH.
  - apply Nat.le_le_succ_r, IH.
Qed.

Lemma sanitizeLabelName_allValid (name : string) :
  allValid (sanitizeLabelName name) = true.
Proof.
  unfold sanitizeLabelName.
  pose proof (replaceInvalidLabelChars_allValid name 0) as A.
  destruct (replaceInvalidLabelChars 0 name) as [| c0 s]; [ reflexivity | ].
  unfold unicode_IsDigit_byte. destruct (GoJSON.isDigit c0); [ | exact A ].
  cbn [append allValid]. rewrite validLabelChar_underscore. exact A.
Qed.

Lemma sanitizeLabelName_wellFormed (name : string) :
  sanitizeLabelName name = "" \/ wellFormedLabelName (sanitizeLabelName name) = true.
Proof.
  pose proof (sanitizeLabelName_allValid name) as A.
  unfold sanitizeLabelName in *.
  destruct (replaceInvalidLabelChars 0 name) as [| c0 s]; [ now left | right ].
  unfold unicode_IsDigit_byte in *. destruct (GoJSON.isDigit c0) eqn:D.
  - cbn [append] in *. unfold wellFormedLabelName.
    rewrite isDigit_underscore, A. reflexivity.
  - unfold wellFormedLabelName. rewrite D, A. reflexivity.
Qed.

Lemma sanitizeLabelName_nonempty (name : string) :
  name <> "" -> sanitizeLabelName name <> "".
Proof.
  intros N. unfold sanitizeLabelName.
  destruct name as [| c rest]; [ contradiction | ].
  cbn [replaceInvalidLabelChars].
  destruct (validLabelChar c);
    match goal with |- context [unicode_IsDigit_byte ?x] =>
      destruct (unicode_IsDigit_byte x) end; discriminate.
Qed.

Lemma sanitizeLabelName_fixed (name : string) :
  name = "" \/ wellFormedLabelName name = true -> sanitizeLabelName name = name.
Proof.
  intros [-> | W]; [ reflexivity | ].
  destruct name as [| c rest]; [ discriminate W | ].
  unfold wellFormedLabelName in W. apply andb_true_iff in W. destruct W as [D A].
  unfold sanitizeLabelName. rewrite (replaceInvalidLabelChars_valid _ A).
  unfold unicode_IsDigit_byte. apply negb_true_iff in D. rewrite D. reflexivity.
Qed.

Lemma between_ascii (x : ascii) (lo hi : Z) :
  GoJSON.byte x < 128 -> 128 <= lo -> GoJSON.between x lo hi = false.
Proof.
  intros X L. unfold GoJSON.between. cbv zeta.
  apply andb_false_iff. left. apply Z.leb_gt. lia.
Qed.

Lemma utf8Len_ascii (x : ascii) (s : string) :
  GoJSON.byte x < 128 -> GoJSON.utf8Len (String x s) = 0%nat.
Proof.
  intros X. unfold GoJSON.utf8Len. cbv zeta.
  replace (0xC2 <=? GoJSON.byte x) with false by (symmetry; apply Z.leb_gt; lia).
  replace (0xE0 <=? GoJSON.byte x) with false by (symmetry; apply Z.leb_gt; lia).
  replace (0xF0 <=? GoJSON.byte x) with false by (symmetry; apply Z.leb_gt; lia).
  reflexivity.
Qed.

(** The width of the rune at the head of a string does not depend on which
    ASCII byte stands at a later place. *)
Lemma utf8Len_ascii_later (c : ascii) (p s : string) (x y : ascii) :
  GoJSON.byte x < 128 -> GoJSON.byte y < 128 ->
  GoJSON.utf8Len (String c (p ++ String x s)) =
  GoJSON.utf8Len (String c (p ++ String y s)).
Proof.
  intros X Y.
  assert (Bx : forall lo hi, 128 <= lo -> GoJSON.between x lo hi = false)
    by (intros; now apply between_ascii).
  assert (By : forall lo hi, 128 <= lo -> GoJSON.between y lo hi = false)
    by (intros; now apply between_ascii).
  unfold GoJSON.utf8Len. cbv zeta.
  destruct ((0xC2 <=? GoJSON.byte c) && (GoJSON.byte c <=? 0xDF)).
  { destruct p; cbn [append]; [ | reflexivity ].
    rewrite Bx, By by lia. reflexivity. }
  destruct ((0xE0 <=? GoJSON.byte c) && (GoJSON.byte c <=? 0xEF)).
  { destruct (GoJSON.byte c =? 0xE0), (GoJSON.byte c =? 0xED);
      (destruct p as [| c1 [| c2 p]]; cbn [append];
       [ rewrite Bx, By by lia; destruct s; reflexivity
       | rewrite Bx, By by lia; rewrite !andb_false_r; reflexivity
       | reflexivity ]). }
  destruct ((0xF0 <=? GoJSON.byte c) && (GoJSON.byte c <=? 0xF4)); [ | reflexivity ].
  destruct (GoJSON.byte c =? 0xF0), (GoJSON.byte c =? 0xF4);
    (destruct p as [| c1 [| c2 [| c3 p]]]; cbn [append];
     [ rewrite Bx, By by lia; destruct s as [| ? [| ? ?]]; reflexivity
     | rewrite Bx, By by lia; rewrite !andb_false_r; destruct s; reflexivity
     | rewrite Bx, By by lia; rewrite !andb_false_r; reflexivity
     | reflexivity ]).
Qed.

Lemma replaceInvalidLabelChars_collision (p s : string) (x y : ascii) :
  GoJSON.byte x < 128 -> GoJSON.byte y < 128 ->
  validLabelChar x = false -> validLabelChar y = false ->
  forall skip,
    replaceInvalidLabelChars skip (p ++ String x s) =
    replaceInvalidLabelChars skip (p ++ String y s).
Proof.
  intros X Y VX VY.
  induction p as [| c p IH]; intros skip; cbn [append].
  - destruct skip; cbn [replaceInvalidLabelChars]; [ | reflexivity ].
    rewrite VX, VY, !utf8Len_ascii by assumption. reflexivity.
  - destruct skip; cbn [replaceInvalidLabelChars]; [ | apply IH ].
    destruct (validLabelChar c); [ now rewrite IH | ].
    rewrite (utf8Len_ascii_later c p s x y X Y), IH. reflexivity.
Qed.

Lemma sanitizeLabelName_well_formed_key (name : string) :
  name <> "" -> wellFormedLabelName (sanitizeLabelName name) = true.
Proof.
  intros N. destruct (sanitizeLabelName_wellFormed name) as [E | W]; [ | exact W ].
  now apply sanitizeLabelName_nonempty in E.
Qed.

Section Sanitize.

(** X12. A label name that is not empty is sanitized to a name of the form
    Prometheus takes: a letter or an underscore first, then letters, digits
    and underscores. *)
Theorem sanitizeLabelName_well_formed (name : string) :
  name <> "" -> wellFormedLabelName (sanitizeLabelName name) = true.
Proof.
  exact (sanitizeLabelName_well_formed_key name).
Qed.

(** X13. Sanitizing twice changes nothing more. *)
Theorem sanitizeLabelName_idempotent (name : string) :
  sanitizeLabelName (sanitizeLabelName name) = sanitizeLabelName name.
Proof.
  apply sanitizeLabelName_fixed.
  destruct (sanitizeLabelName_wellFormed name); auto.
Qed.

(** X14. The names [sanitizeLabelName] leaves as they are are the empty name
    and the names that are well formed already. *)
Theorem sanitizeLabelName_keeps_exactly_well_formed (name : string) :
  sanitizeLabelName name = name <-> (name = "" \/ wellFormedLabelName name = true).
Proof.
  split; [ | apply sanitizeLabelName_fixed ].
  intros E. rewrite <- E. apply sanitizeLabelName_wellFormed.
Qed.

(** X15. The sanitized name is at most one byte longer than the name. *)
Theorem sanitizeLabelName_length (name : string) :
  (String.length (sanitizeLabelName name) <= S (String.length name))%nat.
Proof.
  unfold sanitizeLabelName.
  pose proof (replaceInvalidLabelChars_length name 0) as L.
  destruct (replaceInvalidLabelChars 0 name) as [| c0 s]; [ cbn; lia | ].
  destruct (unicode_IsDigit_byte c0); cbn [append String.length] in *; lia.
Qed.

(** X16. Two names that differ in one place only, where each has an ASCII byte
    outside the class, are sanitized to the same name. *)
Theorem sanitizeLabelName_collision (p s : string) (x y : ascii) :
  GoJSON.byte x < 128 -> GoJSON.byte y < 128 ->
  validLabelChar x = false -> validLabelChar y = false ->
  sanitizeLabelName (p ++ String x s) = sanitizeLabelName (p ++ String y s).
Proof.
  intros X Y VX VY. unfold sanitizeLabelName.
  rewrite (replaceInvalidLabelChars_collision p s x y X Y VX VY 0). reflexivity.
Qed.

End Sanitize.

(** ** The map of sanitized labels *)

From Stdlib Require Import Permutation.

Lemma map_get_set_same (m : Labels) (k v : string) :
  map_get (map_set m k v) k = Some v.
Proof.
  induction m as [| [k' v'] m IH]; cbn.
  - now rewrite String.eqb_refl.
  - destruct (String.eqb k' k) eqn:E; cbn.
    + now rewrite String.eqb_refl.
    + now rewrite E.
Qed.

Lemma map_get_set_other (m : Labels) (k v k0 : string) :
  k <> k0 -> map_get (map_set m k v) k0 = map_get m k0.
Proof.
  intros N. induction m as [| [k' v'] m IH]; cbn.
  - now rewrite (proj2 (String.eqb_neq _ _) N).
  - destruct (String.eqb k' k) eqn:E; cbn.
    + apply String.eqb_eq in E. subst k'.
      now rewrite (proj2 (String.eqb_neq _ _) N).
    + now rewrite IH.
Qed.

Lemma map_set_In (m : Labels) (k v : string) (e : string * string) :
  In e (map_set m k v) -> e = (k, v) \/ In e m.
Proof.
  induction m as [| [k' v'] m IH]; cbn.
  - intros [<- | []]. now left.
  - destruct (String.eqb k' k); cbn; intros [<- | H]; auto.
    destruct (IH H); auto.
Qed.

Lemma keys_map_set (m : Labels) (k v k0 : string) :
  In k0 (keys (map_set m k v)) <-> k0 = k \/ In k0 (keys m).
Proof.
  unfold keys. induction m as [| [k' v'] m IH]; cbn.
  - intuition.
  - destruct (String.eqb k' k) eqn:E; cbn.
    + apply String.eqb_eq in E. subst k'. intuition.
    + rewrite IH. intuition.
Qed.

Lemma NoDup_map_set (m : Labels) (k v : string) :
  NoDup (keys m) -> NoDup (keys (map_set m k v)).
Proof.
  unfold keys. induction m as [| [k' v'] m IH]; cbn; intros D.
  - repeat constructor. intros [].
  - inversion D as [| ? ? Hnot D']; subst.
    destruct (String.eqb k' k) eqn:E; cbn.
    + apply String.eqb_eq in E. subst k'. now constructor.
    + constructor; [ | now apply IH ].
      intros Hin. apply (keys_map_set m k v k') in Hin. destruct Hin as [-> | Hin].
      * now rewrite String.eqb_refl in E.
      * contradiction.
Qed.

Lemma length_map_set_old (m : Labels) (k v : string) :
  In k (keys m) -> List.length (map_set m k v) = List.length m.
Proof.
  unfold keys. induction m as [| [k' v'] m IH]; cbn; [ intros [] | ].
  destruct (String.eqb k' k) eqn:E; cbn; [ reflexivity | ].
  intros [-> | Hin]; [ now rewrite String.eqb_refl in E | now rewrite IH ].
Qed.

Lemma length_map_set_new (m : Labels) (k v : string) :
  ~ In k (keys m) -> List.length (map_set m k v) = S (List.length m).
Proof.
  unfold keys. induction m as [| [k' v'] m IH]; cbn; [ reflexivity | ].
  intros N. destruct (String.eqb k' k) eqn:E; cbn.
  - apply String.eqb_eq in E. tauto.
  - rewrite IH; tauto.
Qed.

Lemma sanitizeLabels_snoc (l : Labels) (kv : string * string) :
  sanitizeLabels (l ++ [kv])%list = map_set (sanitizeLabels l) (sanitizedKey kv) (snd kv).
Proof. unfold sanitizeLabels. now rewrite fold_left_app. Qed.

Lemma sanitizeLabels_keys (l : Labels) (k0 : string) :
  In k0 (keys (sanitizeLabels l)) <-> In k0 (map sanitizedKey l).
Proof.
  induction l as [| kv l IH] using rev_ind; [ cbn; tauto | ].
  rewrite sanitizeLabels_snoc, keys_map_set, map_app, in_app_iff, IH. cbn.
  intuition.
Qed.

Lemma sanitizeLabels_NoDup (l : Labels) : NoDup (keys (sanitizeLabels l)).
Proof.
  induction l as [| kv l IH] using rev_ind; [ constructor | ].
  rewrite sanitizeLabels_snoc. now apply NoDup_map_set.
Qed.

Lemma sanitizeLabels_In (l : Labels) (e : string * string) :
  In e (sanitizeLabels l) ->
  exists k, In (k, snd e) l /\ fst e = sanitizeLabelName k.
Proof.
  induction l as [| [k v] l IH] using rev_ind; [ intros [] | ].
  rewrite sanitizeLabels_snoc. intros H. apply map_set_In in H.
  destruct H as [-> | H].
  - exists k. split; [ apply in_or_app; right; now left | reflexivity ].
  - destruct (IH H) as (k1 & Hin & E). exists k1.
    split; [ apply in_or_app; now left | exact E ].
Qed.

Lemma sanitizeLabels_absent (l : Labels) (k0 : string) :
  ~ In k0 (map sanitizedKey l) -> map_get (sanitizeLabels l) k0 = None.
Proof.
  induction l as [| kv l IH] using rev_ind; [ reflexivity | ].
  rewrite sanitizeLabels_snoc, map_app, in_app_iff. cbn. intros N.
  rewrite map_get_set_other by tauto. apply IH. tauto.
Qed.

Lemma sanitizeLabels_last (l1 l2 : Labels) (k v : string) :
  ~ In (sanitizeLabelName k) (map sanitizedKey l2) ->
  map_get (sanitizeLabels (l1 ++ (k, v) :: l2)%list) (sanitizeLabelName k) = Some v.
Proof.
  induction l2 as [| kv l2 IH] using rev_ind; intros N.
  - rewrite sanitizeLabels_snoc. apply map_get_set_same.
  - rewrite map_app, in_app_iff in N. cbn in N.
    replace (l1 ++ (k, v) :: l2 ++ [kv])%list with ((l1 ++ (k, v) :: l2) ++ [kv])%list
      by (rewrite <- app_assoc; reflexivity).
    rewrite sanitizeLabels_snoc, map_get_set_other by tauto. apply IH. tauto.
Qed.

Lemma NoDup_snoc {A : Type} (l : list A) (a : A) :
  NoDup (l ++ [a])%list <-> ~ In a l /\ NoDup l.
Proof.
  split.
  - intros D. apply NoDup_rev in D. rewrite rev_app_distr in D. cbn in D.
    inversion D; subst. split.
    + now rewrite in_rev.
    + rewrite <- (rev_involutive l). now apply NoDup_rev.
  - intros [N D]. rewrite <- (rev_involutive (l ++ [a])%list). apply NoDup_rev.
    rewrite rev_app_distr. cbn. constructor.
    + now rewrite <- in_rev.
    + now apply NoDup_rev.
Qed.

Lemma sanitizeLabels_length (l : Labels) :
  (List.length (sanitizeLabels l) <= List.length l)%nat /\
  (List.length (sanitizeLabels l) = List.length l <-> NoDup (map sanitizedKey l)).
Proof.
  induction l as [| kv l [IHle IHeq]] using rev_ind.
  - cbn. split; [ lia | split; [ constructor | reflexivity ] ].
  - rewrite sanitizeLabels_snoc, map_app, length_app. cbn [map List.length].
    rewrite NoDup_snoc.
    destruct (in_dec string_dec (sanitizedKey kv) (map sanitizedKey l)) as [Hin | Hout].
    + rewrite length_map_set_old by now apply sanitizeLabels_keys.
      split; [ lia | ]. split; [ lia | tauto ].
    + rewrite length_map_set_new by now rewrite sanitizeLabels_keys.
      split; [ lia | ]. rewrite <- IHeq. split; [ intros; split; [ exact Hout | lia ] | ].
      intros [_ E]. lia.
Qed.

Lemma sanitizeLabels_lookup (l : Labels) (k v : string) :
  NoDup (map sanitizedKey l) -> In (k, v) l ->
  map_get (sanitizeLabels l) (sanitizeLabelName k) = Some v.
Proof.
  intros D Hin. apply in_split in Hin. destruct Hin as (l1 & l2 & ->).
  apply sanitizeLabels_last.
  rewrite map_app in D. apply NoDup_remove_2 in D. cbn in D.
  intros H. apply D. apply in_or_app. now right.
Qed.

Lemma sanitizeLabels_wellFormed (l : Labels) :
  Forall (fun kv => fst kv <> "") l ->
  Forall (fun kv => wellFormedLabelName (fst kv) = true) (sanitizeLabels l).
Proof.
  intros N. apply Forall_forall. intros e He.
  destruct (sanitizeLabels_In l e He) as (k & Hin & ->).
  apply sanitizeLabelName_well_formed_key.
  rewrite Forall_forall in N. exact (N _ Hin).
Qed.

Section NodeLabels.
Context {K : Cluster}.

(** X17. Every entry of the sanitized map comes from a node label: its value is
    the value of a label whose sanitized name is its name. *)
Theorem sanitizeLabels_invents_nothing (nodeLabels : Labels) (name value : string) :
  In (name, value) (sanitizeLabels nodeLabels) ->
  exists k, In (k, value) nodeLabels /\ name = sanitizeLabelName k.
Proof. intros H. exact (sanitizeLabels_In nodeLabels (name, value) H). Qed.

(** X18. Where several node labels are sanitized to the same name, the map keeps
    the value of the one visited last. *)
Theorem sanitizeLabels_keeps_last_visited (l1 l2 : Labels) (k v : string) :
  ~ In (sanitizeLabelName k) (map sanitizedKey l2) ->
  map_get (sanitizeLabels (l1 ++ (k, v) :: l2)%list) (sanitizeLabelName k) = Some v.
Proof. apply sanitizeLabels_last. Qed.

(** X19. The map never has more entries than the node has labels, it has one
    entry per name, and it has as many entries as the node has labels
    exactly when no two labels are sanitized to the same name. *)
Theorem sanitizeLabels_size (nodeLabels : Labels) :
  NoDup (keys (sanitizeLabels nodeLabels)) /\
  (List.length (sanitizeLabels nodeLabels) <= List.length nodeLabels)%nat /\
  (List.length (sanitizeLabels nodeLabels) = List.length nodeLabels <->
   NoDup (map sanitizedKey nodeLabels)).
Proof.
  split; [ apply sanitizeLabels_NoDup | apply sanitizeLabels_length ].
Qed.

(** X20. When no two labels are sanitized to the same name, the order in which
    the loop visits them does not show in the map. *)
Theorem sanitizeLabels_order_irrelevant (l1 l2 : Labels) (name : string) :
  Permutation l1 l2 ->
  NoDup (map sanitizedKey l1) ->
  map_get (sanitizeLabels l1) name = map_get (sanitizeLabels l2) name.
Proof.
  intros P D.
  assert (D2 : NoDup (map sanitizedKey l2))
    by (eapply Permutation_NoDup; [ apply Permutation_map; exact P | exact D ]).
  destruct (in_dec string_dec name (map sanitizedKey l1)) as [Hin | Hout].
  - apply in_map_iff in Hin. destruct Hin as ([k v] & <- & Hin).
    unfold sanitizedKey. cbn [fst].
    rewrite (sanitizeLabels_lookup l1 k v D Hin).
    symmetry. apply sanitizeLabels_lookup; [ exact D2 | ].
    eapply Permutation_in; eassumption.
  - rewrite (sanitizeLabels_absent l1 name Hout).
    symmetry. apply sanitizeLabels_absent. intros Hin. apply Hout.
    eapply Permutation_in; [ apply Permutation_map, Permutation_sym; exact P | exact Hin ].
Qed.

(** X21. The only error [getNodeLabels] returns is the missing NODE_NAME: a
    failure to load the configuration, to build the client or to get the
    node ends the process instead. *)
Theorem getNodeLabels_returns_one_error (kubeconfig : string) (err : error) :
  getNodeLabels kubeconfig = Returned (Err err) ->
  os_Getenv "NODE_NAME" = "" /\ err = "required NODE_NAME not set".
Proof.
  unfold getNodeLabels, log_Fatalf.
  destruct (String.eqb (os_Getenv "NODE_NAME") "") eqn:E.
  - intros H. injection H as <-. split; [ now apply String.eqb_eq | reflexivity ].
  - destruct (buildConfig kubeconfig); [ | discriminate ].
    destruct (kubernetes_NewForConfig _); [ | discriminate ].
    destruct (Nodes_Get _ _); discriminate.
Qed.

(** X22. The labels [getNodeLabels] returns have well-formed names, one entry
    per name, when the node has no label with an empty name. *)
Theorem getNodeLabels_well_formed (kubeconfig : string) (labels : Labels) :
  (forall cs name l, Nodes_Get cs name = Ok l -> Forall (fun kv => fst kv <> "") l) ->
  getNodeLabels kubeconfig = Returned (Ok labels) ->
  Forall (fun kv => wellFormedLabelName (fst kv) = true) labels /\
  NoDup (keys labels).
Proof.
  intros N. unfold getNodeLabels, log_Fatalf.
  destruct (String.eqb (os_Getenv "NODE_NAME") ""); [ discriminate | ].
  destruct (buildConfig kubeconfig); [ | discriminate ].
  destruct (kubernetes_NewForConfig _); [ | discriminate ].
  destruct (Nodes_Get _ _) eqn:G; [ | discriminate ].
  intros H. injection H as <-.
  split; [ apply sanitizeLabels_wellFormed; eapply N; exact G | apply sanitizeLabels_NoDup ].
Qed.



End NodeLabels.

(** * Concrete runs *)

Module Runs.
Import Mock.

Definition c0 : terminationCollector := collector false.
Definition c2 : terminationCollector := collector true.

Definition ok (status : Z) (body : string) : Response :=
  {| StatusCode := status; Body := body; BodyErr := None |}.

Ltac in_run := unfold fetched; exists EmptyString; vm_compute; auto 10.

Lemma C1_witness :
  ch (scrape (H := no_identity) c0 noon) = [] /\
  exists pre token,
    trace (scrape (H := no_identity) c0 noon) =
    (pre ++ [EvFetch (idURL c0) token (Ok (ok 404 ""))])%list.
Proof.
  apply (C1_identity_failure_emits_nothing (R := no_identity) c0 noon (idURL c0)
           (Ok (ok 404 ""))).
  - left. reflexivity.
  - in_run.
  - reflexivity.
Defined.

Lemma C2_witness :
  useIMDSv2 c2 = true /\
  ch (scrape (H := unreachable) c2 noon) = [] /\
  trace (scrape (H := unreachable) c2 noon) =
  [EvToken (tokenEndpoint c2) (Err "connection refused")].
Proof.
  apply (C2_token_failure_aborts (R := unreachable) c2 noon "connection refused").
  vm_compute. auto.
Defined.







(** The world the first scrape of [terminating] leaves: four requests later. *)
Definition later : N := world (scrape (H := terminating) c0 noon).

Lemma C8_witness :
  self (scrape (H := terminating) c0 noon) = c0 /\
  self (scrape (H := terminating) (self (scrape (H := terminating) c0 noon)) later) = c0 /\
  tokens_fresh c0 (trace (scrape (H := terminating) c0 noon)) /\
  tokens_fresh c0
    (trace (scrape (H := terminating) (self (scrape (H := terminating) c0 noon)) later)) /\
  (clock_readings (trace (scrape (H := terminating) c0 noon)) =
   clock_readings
     (trace (scrape (H := terminating) (self (scrape (H := terminating) c0 noon)) later)) ->
   ch (scrape (H := terminating) c0 noon) =
   ch (scrape (H := terminating) (self (scrape (H := terminating) c0 noon)) later)) /\
  exists A E1 E2 B,
    ch (scrape (H := terminating) c0 noon) = (A ++ E1 ++ B)%list /\
    ch (scrape (H := terminating) (self (scrape (H := terminating) c0 noon)) later) =
      (A ++ E2 ++ B)%list /\
    eta_only c0 E1 /\ eta_only c0 E2.
Proof.
  apply (C8_stateless_up_to_eta (R := terminating) c0 noon later).
  vm_compute. reflexivity.
Defined.

(** Two scrapes in a row get the same answers, and the eta they send
    differs: the clock has moved on. *)
Lemma C8_counterexample :
  replies (trace (scrape (H := terminating) c0 noon)) =
  replies (trace (scrape (H := terminating)
                    (self (scrape (H := terminating) c0 noon)) later)) /\
  ch (scrape (H := terminating) c0 noon) <>
  ch (scrape (H := terminating) (self (scrape (H := terminating) c0 noon)) later).
Proof.
  split.
  - vm_compute. reflexivity.
  - intros E. vm_compute in E. discriminate E.
Qed.




End Runs.

(** * Concrete runs of the node labels and of further scrapes *)

Module NodeRuns.
Import Mock MockNode.

Definition c0 : terminationCollector := collector false.
Definition c2 : terminationCollector := collector true.

Definition ok (status : Z) (body : string) : Response :=
  {| StatusCode := status; Body := body; BodyErr := None |}.

Ltac in_run := unfold fetched; exists EmptyString; vm_compute; auto 10.

Lemma Collect_identity_labels_witness :
  Forall (fun m => labelValues m = ["i-1234"] \/
                   labelValues m = ["i-1234"; "m5.large"] \/
                   exists action, labelValues m = [action; "i-1234"; "m5.large"])
    (ch (scrape (H := quiet) c0 noon)).
Proof.
  apply (Collect_identity_labels (R := quiet) c0 noon (ok 200 "i-1234")
           (ok 200 "m5.large")); in_run.
Defined.


Lemma not_found_is_logged_at_debug_witness :
  logs (scrape (H := idle) c0 noon) =
  [{| level := InfoLevel;
      format := "Fetching termination data from metadata-service";
      args := [] |};
   {| level := DebugLevel; format := "instance-action endpoint not found"; args := [] |};
   {| level := DebugLevel; format := "rebalance endpoint not found"; args := [] |}].
Proof.
  apply (not_found_is_logged_at_debug (R := idle) c0 noon (ok 404 "") (ok 404 ""));
    [ in_run | reflexivity | in_run | reflexivity ].
Defined.

Lemma token_status_is_not_checked_witness :
  exists r rest,
    trace (scrape (H := forbidden_token) c2 noon) =
    EvToken tokenURL (Ok "Forbidden") :: EvFetch (idURL c2) "Forbidden" r :: rest.
Proof.
  apply (token_status_is_not_checked (R := forbidden_token) c2 noon
           (ok 403 "Forbidden") (noon + 1000000)%N); reflexivity.
Defined.

Lemma sanitizeLabelName_well_formed_witness :
  wellFormedLabelName (sanitizeLabelName "topology.kubernetes.io/zone") = true.
Proof.
  apply (sanitizeLabelName_well_formed "topology.kubernetes.io/zone"). discriminate.
Defined.

Lemma sanitizeLabelName_collision_witness :
  sanitizeLabelName ("team" ++ String "." "name") =
  sanitizeLabelName ("team" ++ String "/" "name").
Proof.
  apply (sanitizeLabelName_collision "team" "name" "." "/"); reflexivity.
Defined.

Lemma sanitizeLabels_invents_nothing_witness :
  exists k, In (k, "amd64") [zone; arch] /\ "kubernetes_io_arch" = sanitizeLabelName k.
Proof.
  apply (sanitizeLabels_invents_nothing [zone; arch] "kubernetes_io_arch" "amd64").
  vm_compute. auto.
Defined.

(** Two labels with one sanitized name: the one visited last is kept. *)
Lemma sanitizeLabels_keeps_last_visited_witness :
  map_get (sanitizeLabels ([zone; team_dot] ++ team_slash :: [arch])%list)
    (sanitizeLabelName "team/name") = Some "blue".
Proof.
  apply (sanitizeLabels_keeps_last_visited [zone; team_dot] [arch] "team/name" "blue").
  vm_compute. intros [H | []]. discriminate H.
Defined.

Lemma sanitizeLabels_order_irrelevant_witness :
  map_get (sanitizeLabels [zone; arch]) "kubernetes_io_arch" =
  map_get (sanitizeLabels [arch; zone]) "kubernetes_io_arch".
Proof.
  apply (sanitizeLabels_order_irrelevant [zone; arch] [arch; zone] "kubernetes_io_arch").
  - apply perm_swap.
  - vm_compute. repeat constructor; cbn; intuition discriminate.
Defined.

Lemma getNodeLabels_returns_one_error_witness :
  os_Getenv (Cluster := cluster "" "node-1" [zone]) "NODE_NAME" = "" /\
  "required NODE_NAME not set" = "required NODE_NAME not set".
Proof.
  apply (getNodeLabels_returns_one_error (K := cluster "" "node-1" [zone]) ""
           "required NODE_NAME not set").
  reflexivity.
Defined.

Lemma node_keys_not_empty (nodeName me : string) (labels : Labels) :
  Forall (fun kv => fst kv <> "") labels ->
  forall cs name l,
    Nodes_Get (Cluster := cluster nodeName me labels) cs name = Ok l ->
    Forall (fun kv => fst kv <> "") l.
Proof.
  intros N cs name l. cbn. destruct (String.eqb name me); [ | discriminate ].
  intros H. injection H as <-. exact N.
Defined.

Lemma zone_team_keys : Forall (fun kv => fst kv <> "") [zone; team_dot; team_slash].
Proof. repeat constructor; discriminate. Defined.

Lemma getNodeLabels_well_formed_witness :
  Forall (fun kv => wellFormedLabelName (fst kv) = true)
    [("topology_kubernetes_io_zone", "eu-west-1a"); ("team_name", "blue")] /\
  NoDup (keys [("topology_kubernetes_io_zone", "eu-west-1a"); ("team_name", "blue")]).
Proof.
  apply (getNodeLabels_well_formed
           (K := cluster "node-1" "node-1" [zone; team_dot; team_slash]) "").
  - apply node_keys_not_empty, zone_team_keys.
  - reflexivity.
Defined.



End NodeRuns.
